(** * Ride prediction scripts: a shallow embedding and its properties

    The development follows [scripts/advanced_ride_predictor.py] and the
    distance helper of [scripts/predict_ride_details.py].

    Conventions of the embedding.
    - Python [float] values are read as real numbers ([R]): rounding, NaN and
      infinities are outside the model.  Python [int] values are [Z].
      Three failures of the running program are therefore out of reach of
      the embedding: the [ValueError] of [math.sqrt (1 - a)] when rounding
      lifts [a] above 1 (points that are nearly antipodal), the
      [OverflowError] of [math.radians] on an [int] beyond the range of a
      double, and exceptions raised inside scikit-learn.  Statements about
      arbitrary coordinates are made of the calls that return.
    - A call either returns a value or raises an exception ([py]).
    - The module-level variables [_fare_model], [_eta_model] and the state of
      the [random] module are threaded explicitly ([globals]).
    - scikit-learn, pandas and string formatting are collaborators: they are
      the fields of the class [Collaborators]. *)

From Stdlib Require Import Reals Lra Lia ZArith List String Ascii Bool Permutation.
Import ListNotations.

Local Open Scope R_scope.

(** ** Python values, exceptions *)

Inductive exn : Type :=
| TypeError
| ValueError.

Inductive py (A : Type) : Type :=
| Returned (a : A)
| Raised (e : exn).

Arguments Returned {A} a.
Arguments Raised {A} e.

Definition bind {A B : Type} (c : py A) (k : A -> py B) : py B :=
  match c with
  | Returned a => k a
  | Raised e => Raised e
  end.

Notation "x <- c ;; k" := (bind c (fun x => k))
  (at level 61, c at next level, right associativity).

(** The values a caller can pass where a coordinate pair is expected. *)
#[local] Set Warnings "-register-all".
Inductive pyval : Type :=
| PyNone
| PyInt (z : Z)
| PyFloat (x : R)
| PyStr (s : string)
| PyTuple (items : list pyval)
| PyList (items : list pyval).
#[local] Set Warnings "register-all".

(** The conversion the [math] functions apply to their argument: an [int] or
    a [float] is accepted, anything else is a [TypeError]. *)
Definition as_float (v : pyval) : py R :=
  match v with
  | PyInt z => Returned (IZR z)
  | PyFloat x => Returned x
  | _ => Raised TypeError
  end.

(** [a, b = v]: a non-iterable is a [TypeError], an iterable that does not
    hold exactly two items a [ValueError]; a [str] iterates its characters. *)
Definition unpack2 (v : pyval) : py (pyval * pyval) :=
  match v with
  | PyTuple [a; b] | PyList [a; b] => Returned (a, b)
  | PyTuple _ | PyList _ => Raised ValueError
  | PyStr (String c1 (String c2 EmptyString)) =>
      Returned (PyStr (String c1 EmptyString), PyStr (String c2 EmptyString))
  | PyStr _ => Raised ValueError
  | PyNone | PyInt _ | PyFloat _ => Raised TypeError
  end.

(** ** The [math] module *)

Definition math_radians (v : pyval) : py R :=
  x <- as_float v ;; Returned (x * (PI / 180)).

(** [math.sqrt] raises [ValueError] ("math domain error") below zero. *)
Definition math_sqrt (x : R) : py R :=
  if Rlt_dec x 0 then Raised ValueError else Returned (sqrt x).

Definition math_atan2 (y x : R) : R :=
  if Rlt_dec 0 x then atan (y / x)
  else if Rlt_dec x 0 then
    (if Rle_dec 0 y then atan (y / x) + PI else atan (y / x) - PI)
  else if Rlt_dec 0 y then PI / 2
  else if Rlt_dec y 0 then - (PI / 2)
  else 0.

(** ** Helper functions *)

Definition haversine_distance (lat1 lon1 lat2 lon2 : pyval) : py R :=
  let R := 6371 in
  lat1_rad <- math_radians lat1 ;;
  lon1_rad <- math_radians lon1 ;;
  lat2_rad <- math_radians lat2 ;;
  lon2_rad <- math_radians lon2 ;;
  let dlon := lon2_rad - lon1_rad in
  let dlat := lat2_rad - lat1_rad in
  let a := sin (dlat / 2) ^ 2 + cos lat1_rad * cos lat2_rad * sin (dlon / 2) ^ 2 in
  sqrt_a <- math_sqrt a ;;
  sqrt_1_a <- math_sqrt (1 - a) ;;
  let c := 2 * math_atan2 sqrt_a sqrt_1_a in
  let distance := R * c in
  Returned distance.

(** The helper of [predict_ride_details.py], a second copy of the same text. *)
Module PredictRideDetails.

Definition haversine_distance (lat1 lon1 lat2 lon2 : pyval) : py R :=
  let R := 6371 in
  lat1_rad <- math_radians lat1 ;;
  lon1_rad <- math_radians lon1 ;;
  lat2_rad <- math_radians lat2 ;;
  lon2_rad <- math_radians lon2 ;;
  let dlon := lon2_rad - lon1_rad in
  let dlat := lat2_rad - lat1_rad in
  let a := sin (dlat / 2) ^ 2 + cos lat1_rad * cos lat2_rad * sin (dlon / 2) ^ 2 in
  sqrt_a <- math_sqrt a ;;
  sqrt_1_a <- math_sqrt (1 - a) ;;
  let c := 2 * math_atan2 sqrt_a sqrt_1_a in
  let distance := R * c in
  Returned distance.

End PredictRideDetails.

(** The distance as section 4.1 of the specification writes it, on reals. *)
Definition hav_a (lat1 lon1 lat2 lon2 : R) : R :=
  let phi1 := lat1 * (PI / 180) in
  let phi2 := lat2 * (PI / 180) in
  let dphi := phi2 - phi1 in
  let dlam := lon2 * (PI / 180) - lon1 * (PI / 180) in
  (sin (dphi / 2))² + cos phi1 * cos phi2 * (sin (dlam / 2))².

Definition geodesic_km (lat1 lon1 lat2 lon2 : R) : R :=
  let a := hav_a lat1 lon1 lat2 lon2 in
  6371 * (2 * math_atan2 (sqrt a) (sqrt (1 - a))).

(** ** Collaborators

    What the script takes from [random], scikit-learn, pandas and the
    format-string machinery.  A row of the data frame is a [TripSample]; the
    five feature columns are a [FeatureVector]. *)

Record FeatureVector : Type := {
  fv_distance_km : R;
  fv_time_of_day_hour : Z;
  fv_day_of_week : Z;
  fv_is_rainy : Z;
  fv_ride_category : Z
}.

Record TripSample : Type := {
  ts_distance_km : R;
  ts_time_of_day_hour : Z;
  ts_day_of_week : Z;
  ts_is_rainy : Z;
  ts_ride_category : Z;
  ts_fare_bdt : R;
  ts_eta_minutes : R
}.

Definition features_of (s : TripSample) : FeatureVector :=
  {| fv_distance_km := ts_distance_km s;
     fv_time_of_day_hour := ts_time_of_day_hour s;
     fv_day_of_week := ts_day_of_week s;
     fv_is_rainy := ts_is_rainy s;
     fv_ride_category := ts_ride_category s |}.

Class Collaborators : Type := {
  (** the state of the [random] module and its three draws *)
  rng : Type;
  random_uniform : R -> R -> rng -> R * rng;
  random_randint : Z -> Z -> rng -> Z * rng;
  random_choice : list Z -> rng -> Z * rng;
  (** a fitted [RandomForestRegressor(n_estimators=100, random_state=42)] *)
  model : Type;
  train_test_split : list TripSample -> list TripSample * list TripSample;
  fit : list (FeatureVector * R) -> model;
  model_predict : model -> FeatureVector -> R;
  (** [f"{x:.2f}"] and [f"{int(x)}"] *)
  format_2f : R -> string;
  format_int : R -> string
}.

(** ** 1. Data generation and model training *)

Section Training.
Context {C : Collaborators}.

(** One turn of the loop of [generate_synthetic_data]: the row it appends. *)
Definition generate_sample (g0 : rng) : TripSample * rng :=
  let '(distance_km, g1) := random_uniform 1 50 g0 in
  let '(time_of_day_hour, g2) := random_randint 0 23 g1 in
  let '(day_of_week, g3) := random_randint 0 6 g2 in
  let '(is_rainy, g4) := random_choice [0%Z; 1%Z] g3 in
  let '(ride_category, g5) := random_randint 0 4 g4 in
  let '(base_fare_bdt, cost_per_km_bdt, eta_multiplier, max_distance) :=
    if (ride_category =? 0)%Z then (50, 25, 1.0, 30)
    else if (ride_category =? 1)%Z then (100, 40, 0.8, 50)
    else if (ride_category =? 2)%Z then (30, 15, 0.7, 40)
    else if (ride_category =? 3)%Z then (20, 10, 1.5, 10)
    else (35, 18, 1.2, 20) in
  let current_distance_km := Rmin distance_km max_distance in
  let fare_linear_base := current_distance_km * cost_per_km_bdt + base_fare_bdt in
  let eta_linear_base := current_distance_km * 2 * eta_multiplier in
  let fare := fare_linear_base + IZR (time_of_day_hour * 3)
              + IZR (day_of_week * 5) + IZR (is_rainy * 70) in
  let eta := eta_linear_base + IZR time_of_day_hour * 0.5
             + IZR (day_of_week * 1) + IZR (is_rainy * 10) in
  let '(noise_fare, g6) := random_uniform (-25) 25 g5 in
  let fare := Rmax base_fare_bdt (fare + noise_fare) in
  let '(noise_eta, g7) := random_uniform (-5) 5 g6 in
  let eta := Rmax 5 (eta + noise_eta) in
  ({| ts_distance_km := current_distance_km;
      ts_time_of_day_hour := time_of_day_hour;
      ts_day_of_week := day_of_week;
      ts_is_rainy := is_rainy;
      ts_ride_category := ride_category;
      ts_fare_bdt := fare;
      ts_eta_minutes := eta |}, g7).

Fixpoint generate_synthetic_data (num_samples : nat) (g : rng)
  : list TripSample * rng :=
  match num_samples with
  | O => ([], g)
  | S n =>
      let '(row, g1) := generate_sample g in
      let '(data, g2) := generate_synthetic_data n g1 in
      (row :: data, g2)
  end.

Definition train_models (g : rng) : (model * model) * rng :=
  let '(df, g1) := generate_synthetic_data 1000 g in
  let '(train, _) := train_test_split df in
  let fare_model := fit (map (fun s => (features_of s, ts_fare_bdt s)) train) in
  let eta_model := fit (map (fun s => (features_of s, ts_eta_minutes s)) train) in
  ((fare_model, eta_model), g1).

End Training.

(** ** Simulated surge zone clustering *)

Definition SURGE_ZONE_CENTERS : list (R * R * R) :=
  [ (23.78, 90.41, 1.5);
    (23.75, 90.38, 1.3);
    (23.72, 90.40, 1.8) ].

Definition SURGE_RADIUS_KM : R := 2.0.

(** The [for] loop of [get_surge_multiplier] over the zones still to visit. *)
Fixpoint surge_scan (pickup_lat pickup_lon : pyval) (zones : list (R * R * R))
  : py R :=
  match zones with
  | [] => Returned 1.0
  | (center_lat, center_lon, multiplier) :: rest =>
      dist <- haversine_distance pickup_lat pickup_lon
                (PyFloat center_lat) (PyFloat center_lon) ;;
      if Rle_dec dist SURGE_RADIUS_KM then Returned multiplier
      else surge_scan pickup_lat pickup_lon rest
  end.

Definition get_surge_multiplier (pickup_lat pickup_lon : pyval) : py R :=
  surge_scan pickup_lat pickup_lon SURGE_ZONE_CENTERS.

(** ** Simulated prediction confidence *)

(** Truth value of an [int] used as a condition. *)
Definition truthy (z : Z) : bool := negb (z =? 0)%Z.

Definition Rgtb (x y : R) : bool := if Rgt_dec x y then true else false.

Definition rush_hour (time_of_day_hour : Z) : bool :=
  ((7 <=? time_of_day_hour) && (time_of_day_hour <=? 9)
   || (17 <=? time_of_day_hour) && (time_of_day_hour <=? 19))%Z.

Definition get_prediction_confidence
  (distance_km : R) (time_of_day_hour is_rainy ride_category : Z) : string :=
  let confidence_score := 3%Z in
  let confidence_score :=
    if Rgtb distance_km 30 then (confidence_score - 1)%Z else confidence_score in
  let confidence_score :=
    if rush_hour time_of_day_hour then (confidence_score - 1)%Z
    else confidence_score in
  let confidence_score :=
    if truthy is_rainy then (confidence_score - 1)%Z else confidence_score in
  let confidence_score :=
    if existsb (Z.eqb ride_category) [3%Z; 4%Z] then (confidence_score - 1)%Z
    else confidence_score in
  let confidence_score := Z.max 1 confidence_score in
  if (confidence_score =? 3)%Z then "High"%string
  else if (confidence_score =? 2)%Z then "Medium"%string
  else "Low"%string.

(** ** Destination recommendation *)

(** [str.lower] on the ASCII letters; other characters are left as they are. *)
Definition lower_ascii (c : ascii) : ascii :=
  let n := nat_of_ascii c in
  if ((65 <=? n) && (n <=? 90))%nat then ascii_of_nat (n + 32) else c.

Fixpoint lower (s : string) : string :=
  match s with
  | EmptyString => EmptyString
  | String c rest => String (lower_ascii c) (lower rest)
  end.

(** [needle in hay] on strings. *)
Fixpoint str_in (needle hay : string) : bool :=
  if String.prefix needle hay then true
  else match hay with
       | EmptyString => false
       | String _ rest => str_in needle rest
       end.

Definition get_recommended_destination (pickup_location_name : string)
  : option string :=
  let pickup_location_name := lower pickup_location_name in
  if str_in "gulshan" pickup_location_name then Some "Bashundhara R/A"%string
  else if str_in "dhanmondi" pickup_location_name then Some "Motijheel"%string
  else if str_in "mirpur" pickup_location_name then Some "Uttara"%string
  else None.

(** ** The cached models and the prediction entry point *)

Record FeatureImpacts : Type := {
  fi_distance : Z;
  fi_time_of_day : Z;
  fi_demand_level : Z;
  fi_location_situation : Z
}.

Record PredictionResult : Type := {
  pr_fare : string;
  pr_eta : string;
  pr_distance_km : string;
  pr_surge_applied : bool;
  pr_prediction_confidence : string;
  pr_recommended_destination : option string;
  pr_feature_impacts : FeatureImpacts
}.

(** The dictionary the entry point returns: the one-key error dictionary or
    the seven-key result. *)
Inductive response : Type :=
| ErrorDict (error : string)
| ResultDict (r : PredictionResult).

Definition max_distance_map : list (Z * R) :=
  [ (0%Z, 30); (1%Z, 50); (2%Z, 40); (3%Z, 10); (4%Z, 20) ].

(** [d.get(key, default)] *)
Fixpoint dict_get (d : list (Z * R)) (key : Z) (default : R) : R :=
  match d with
  | [] => default
  | (k, v) :: rest => if (k =? key)%Z then v else dict_get rest key default
  end.

Section Prediction.
Context {C : Collaborators}.

Record globals : Type := {
  _fare_model : option model;
  _eta_model : option model;
  random_state : rng
}.

Definition get_trained_models (st : globals) : (model * model) * globals :=
  match _fare_model st, _eta_model st with
  | Some fare_model, Some eta_model => ((fare_model, eta_model), st)
  | _, _ =>
      let '((fare_model, eta_model), g) := train_models (random_state st) in
      ((fare_model, eta_model),
       {| _fare_model := Some fare_model;
          _eta_model := Some eta_model;
          random_state := g |})
  end.

(** The body of [predict_ride_details_advanced] once the models are at hand. *)
Definition predict_with (fare_model eta_model : model)
  (pickup_coords destination_coords : pyval)
  (time_of_day_hour day_of_week is_rainy ride_category : Z)
  (pickup_location_name : string) : py response :=
  match (p <- unpack2 pickup_coords ;;
         d <- unpack2 destination_coords ;;
         Returned (p, d)) with
  | Raised TypeError | Raised ValueError =>
      Returned
        (ErrorDict "Invalid coordinates format. Expected (latitude, longitude).")
  | Returned ((pickup_lat, pickup_lon), (dest_lat, dest_lon)) =>
      distance_km <- haversine_distance pickup_lat pickup_lon dest_lat dest_lon ;;
      let distance_km := Rmin distance_km (dict_get max_distance_map ride_category 50) in
      let features :=
        {| fv_distance_km := distance_km;
           fv_time_of_day_hour := time_of_day_hour;
           fv_day_of_week := day_of_week;
           fv_is_rainy := is_rainy;
           fv_ride_category := ride_category |} in
      let predicted_fare := model_predict fare_model features in
      let predicted_eta := model_predict eta_model features in
      surge_multiplier <- get_surge_multiplier pickup_lat pickup_lon ;;
      let predicted_fare := predicted_fare * surge_multiplier in
      let surge_applied_status := Rgtb surge_multiplier 1.0 in
      let prediction_confidence :=
        get_prediction_confidence distance_km time_of_day_hour is_rainy ride_category in
      let recommended_destination :=
        get_recommended_destination pickup_location_name in
      let time_impact_val :=
        if rush_hour time_of_day_hour then 25%Z
        else if ((10 <=? time_of_day_hour) && (time_of_day_hour <=? 11)
                 || (12 <=? time_of_day_hour) && (time_of_day_hour <=? 16)
                 || (20 <=? time_of_day_hour) && (time_of_day_hour <=? 21))%Z
        then 15%Z else 5%Z in
      let demand_impact_val := 5%Z in
      let demand_impact_val :=
        if truthy is_rainy then (demand_impact_val + 10)%Z else demand_impact_val in
      let demand_impact_val :=
        if surge_applied_status then (demand_impact_val + 15)%Z
        else demand_impact_val in
      let demand_impact_val := Z.min demand_impact_val 40 in
      let loc_sit_impact_val := 5%Z in
      let loc_sit_impact_val :=
        if truthy is_rainy then (loc_sit_impact_val + 10)%Z else loc_sit_impact_val in
      let loc_sit_impact_val :=
        if surge_applied_status then (loc_sit_impact_val + 15)%Z
        else loc_sit_impact_val in
      let loc_sit_impact_val := Z.min loc_sit_impact_val 40 in
      let feature_impacts :=
        {| fi_distance := 38;
           fi_time_of_day := time_impact_val;
           fi_demand_level := demand_impact_val;
           fi_location_situation := loc_sit_impact_val |} in
      Returned
        (ResultDict
           {| pr_fare := format_2f predicted_fare ++ " BDT";
              pr_eta := format_int predicted_eta ++ " mins";
              pr_distance_km := format_2f distance_km ++ " km";
              pr_surge_applied := surge_applied_status;
              pr_prediction_confidence := prediction_confidence;
              pr_recommended_destination := recommended_destination;
              pr_feature_impacts := feature_impacts |})
  end.

Definition predict_ride_details_advanced
  (pickup_coords destination_coords : pyval)
  (time_of_day_hour day_of_week is_rainy ride_category : Z)
  (pickup_location_name : string) (st : globals) : py response * globals :=
  let '((fare_model, eta_model), st1) := get_trained_models st in
  (predict_with fare_model eta_model pickup_coords destination_coords
     time_of_day_hour day_of_week is_rainy ride_category pickup_location_name,
   st1).

End Prediction.

(** ** Vocabulary of the properties *)

(** A value the [math] functions accept. *)
Definition numeric (v : pyval) : Prop := exists x : R, as_float v = Returned x.

(** The four conditions [get_prediction_confidence] tests, in source order. *)
Definition penalty_conditions
  (distance_km : R) (time_of_day_hour is_rainy ride_category : Z) : list bool :=
  [ Rgtb distance_km 30;
    rush_hour time_of_day_hour;
    truthy is_rainy;
    existsb (Z.eqb ride_category) [3%Z; 4%Z] ].

(** One deduction, and the final mapping of a score to its label. *)
Definition deduct (score : Z) (fires : bool) : Z :=
  if fires then (score - 1)%Z else score.

Definition confidence_label (score : Z) : string :=
  if (score =? 3)%Z then "High"%string
  else if (score =? 2)%Z then "Medium"%string
  else "Low"%string.

(** The order Low < Medium < High; a string that is no label ranks 0. *)
Definition confidence_rank (label : string) : Z :=
  if String.eqb label "High" then 3%Z
  else if String.eqb label "Medium" then 2%Z
  else if String.eqb label "Low" then 1%Z
  else 0%Z.

(** What every generated row satisfies, category by category. *)
Definition sample_in_bounds (s : TripSample) : Prop :=
  (ts_ride_category s = 0%Z -> ts_distance_km s <= 30 /\ 50 <= ts_fare_bdt s)
  /\ (ts_ride_category s = 1%Z -> ts_distance_km s <= 50 /\ 100 <= ts_fare_bdt s)
  /\ (ts_ride_category s = 2%Z -> ts_distance_km s <= 40 /\ 30 <= ts_fare_bdt s)
  /\ (ts_ride_category s = 3%Z -> ts_distance_km s <= 10 /\ 20 <= ts_fare_bdt s)
  /\ (ts_ride_category s = 4%Z -> ts_distance_km s <= 20 /\ 35 <= ts_fare_bdt s)
  /\ 5 <= ts_eta_minutes s.

(** The dictionary returned for coordinates that do not unpack. *)
Definition invalid_coordinates : response :=
  ErrorDict "Invalid coordinates format. Expected (latitude, longitude).".

(** The Confidence Estimator as section 4.5 of the specification words it:
    count the penalties that fire, subtract the count from 3, clamp at 1, map
    the score to a label. *)
Module ConfidenceSpec.

Definition in_range (lo hi x : Z) : bool := ((lo <=? x) && (x <=? hi))%Z.

Definition penalties (distance_km : R) (hour is_rainy category : Z) : list bool :=
  [ Rgtb distance_km 30;
    in_range 7 9 hour || in_range 17 19 hour;
    truthy is_rainy;
    (category =? 3)%Z || (category =? 4)%Z ].

Definition label_of (score : Z) : string :=
  match score with
  | 3%Z => "High"%string
  | 2%Z => "Medium"%string
  | _ => "Low"%string
  end.

Definition confidence (distance_km : R) (hour is_rainy category : Z) : string :=
  let fired := Z.of_nat (count_occ bool_dec (penalties distance_km hour is_rainy category) true) in
  label_of (Z.max 1 (3 - fired)).

End ConfidenceSpec.

(** A small deterministic instance of the collaborators, to run the entry
    point on concrete calls: draws follow a counter, a model is the constant
    it predicts. *)
Module Toy.

Definition uniform (a b : R) (g : nat) : R * nat := ((a + b) / 2, S g).

Definition randint (a b : Z) (g : nat) : Z * nat :=
  ((a + Z.of_nat g mod (b - a + 1))%Z, S g).

Definition choice (options : list Z) (g : nat) : Z * nat :=
  (nth (g mod List.length options) options 0%Z, S g).

Definition split (df : list TripSample) : list TripSample * list TripSample :=
  let n := (List.length df * 4 / 5)%nat in (firstn n df, skipn n df).

Definition fit_first (rows : list (FeatureVector * R)) : R :=
  match rows with
  | [] => 0
  | (_, y) :: _ => y
  end.

Definition collaborators : Collaborators :=
  {| rng := nat;
     random_uniform := uniform;
     random_randint := randint;
     random_choice := choice;
     model := R;
     train_test_split := split;
     fit := fit_first;
     model_predict := fun m _ => m;
     format_2f := fun _ => "0.00"%string;
     format_int := fun _ => "0"%string |}.

(** The process as it starts: no model cached. *)
Definition fresh : @globals collaborators :=
  @Build_globals collaborators None None 0%nat.

End Toy.

(** ** Example usage: the [__main__] block of [advanced_ride_predictor.py] *)

Section Main.
Context {C : Collaborators}.

(** The module as loaded: both cached models are [None]. *)
Definition module_globals (g : rng) : globals :=
  {| _fare_model := None; _eta_model := None; random_state := g |}.

(** The block trains, then prints the results of two example calls; [main]
    returns the two dictionaries it prints.  The pair [train_models] returns
    is bound to the module names [fare_model] and [eta_model], which are not
    the cache variables and which nothing reads afterwards. *)
Definition main (g : rng) : py (response * response) * globals :=
  let st0 := module_globals g in
  let '((fare_model, eta_model), g1) := train_models (random_state st0) in
  let st1 :=
    {| _fare_model := _fare_model st0;
       _eta_model := _eta_model st0;
       random_state := g1 |} in
  let '(prediction_result_ex1, st2) :=
    predict_ride_details_advanced
      (PyTuple [PyFloat 23.785; PyFloat 90.415])
      (PyTuple [PyFloat 23.8200; PyFloat 90.4220])
      18 4 0 4 "Gulshan 1" st1 in
  match prediction_result_ex1 with
  | Raised e => (Raised e, st2)
  | Returned ex1 =>
      let '(prediction_result_ex2, st3) :=
        predict_ride_details_advanced
          (PyTuple [PyFloat 23.8070; PyFloat 90.3680])
          (PyTuple [PyFloat 23.8759; PyFloat 90.3978])
          10 0 0 2 "Mirpur 10" st2 in
      match prediction_result_ex2 with
      | Raised e => (Raised e, st3)
      | Returned ex2 => (Returned (ex1, ex2), st3)
      end
  end.

End Main.

(** ** [predict_ride_details.py]: the entry point and its example block *)

Module Baseline.

Record RideDetails : Type := {
  rd_fare : string;
  rd_eta : string;
  rd_distance_km : string
}.

Inductive response : Type :=
| ErrorDict (error : string)
| ResultDict (r : RideDetails).

(** The three numbers the entry point formats. *)
Record RideValues : Type := {
  rv_fare : R;
  rv_eta_minutes : R;
  rv_distance_km : R
}.

Definition render {C : Collaborators} (v : RideValues) : RideDetails :=
  {| rd_fare := format_2f (rv_fare v) ++ " BDT";
     rd_eta := format_int (rv_eta_minutes v) ++ " mins";
     rd_distance_km := format_2f (rv_distance_km v) ++ " km" |}.

Section Script.
Context {C : Collaborators}.

Definition predict_ride_details (pickup_coords destination_coords : pyval)
  (g : rng) : py response * rng :=
  match (p <- unpack2 pickup_coords ;;
         d <- unpack2 destination_coords ;;
         Returned (p, d)) with
  | Raised TypeError | Raised ValueError =>
      (Returned
         (ErrorDict "Invalid coordinates format. Expected (latitude, longitude)."),
       g)
  | Returned ((pickup_lat, pickup_lon), (dest_lat, dest_lon)) =>
      match PredictRideDetails.haversine_distance
              pickup_lat pickup_lon dest_lat dest_lon with
      | Raised e => (Raised e, g)
      | Returned distance_km =>
          let base_fare_bdt := 50 in
          let cost_per_km_bdt := 25 in
          let fare := base_fare_bdt + distance_km * cost_per_km_bdt in
          let '(noise, g1) := random_uniform (-0.1) 0.1 g in
          let fare := fare * (1 + noise) in
          let fare := Rmax fare base_fare_bdt in
          let avg_speed_kmph := 20 in
          let time_hours := distance_km / avg_speed_kmph in
          let '(delay, g2) := random_randint 5 15 g1 in
          let eta_minutes := time_hours * 60 + IZR delay in
          (Returned
             (ResultDict
                {| rd_fare := format_2f fare ++ " BDT";
                   rd_eta := format_int eta_minutes ++ " mins";
                   rd_distance_km := format_2f distance_km ++ " km" |}),
           g2)
      end
  end.

(** The same computation up to the formatting: [None] stands for the error
    dictionary. *)
Definition predict_ride_details_values (pickup_coords destination_coords : pyval)
  (g : rng) : py (option RideValues) * rng :=
  match (p <- unpack2 pickup_coords ;;
         d <- unpack2 destination_coords ;;
         Returned (p, d)) with
  | Raised TypeError | Raised ValueError => (Returned None, g)
  | Returned ((pickup_lat, pickup_lon), (dest_lat, dest_lon)) =>
      match PredictRideDetails.haversine_distance
              pickup_lat pickup_lon dest_lat dest_lon with
      | Raised e => (Raised e, g)
      | Returned distance_km =>
          let base_fare_bdt := 50 in
          let cost_per_km_bdt := 25 in
          let fare := base_fare_bdt + distance_km * cost_per_km_bdt in
          let '(noise, g1) := random_uniform (-0.1) 0.1 g in
          let fare := fare * (1 + noise) in
          let fare := Rmax fare base_fare_bdt in
          let avg_speed_kmph := 20 in
          let time_hours := distance_km / avg_speed_kmph in
          let '(delay, g2) := random_randint 5 15 g1 in
          let eta_minutes := time_hours * 60 + IZR delay in
          (Returned
             (Some {| rv_fare := fare;
                      rv_eta_minutes := eta_minutes;
                      rv_distance_km := distance_km |}),
           g2)
      end
  end.

(** The example block: three calls, the last with a destination that is no
    pair; [main] returns the three dictionaries it prints. *)
Definition main (g : rng) : py (response * response * response) * rng :=
  let pickup := PyTuple [PyFloat 23.7939; PyFloat 90.4078] in
  let destination := PyTuple [PyFloat 23.8200; PyFloat 90.4220] in
  let '(prediction_result, g1) := predict_ride_details pickup destination g in
  match prediction_result with
  | Raised e => (Raised e, g1)
  | Returned r1 =>
      let pickup_short := PyTuple [PyFloat 23.7939; PyFloat 90.4078] in
      let destination_short := PyTuple [PyFloat 23.7950; PyFloat 90.4085] in
      let '(prediction_result_short, g2) :=
        predict_ride_details pickup_short destination_short g1 in
      match prediction_result_short with
      | Raised e => (Raised e, g2)
      | Returned r2 =>
          let '(invalid_prediction, g3) :=
            predict_ride_details (PyTuple [PyInt 1; PyInt 2]) (PyStr "invalid") g2 in
          match invalid_prediction with
          | Raised e => (Raised e, g3)
          | Returned r3 => (Returned (r1, r2, r3), g3)
          end
      end
  end.

End Script.

End Baseline.

(** ** Further vocabulary *)

(** [needle] occurs in [hay] as a contiguous run of characters. *)
Definition occurs_in (needle hay : string) : Prop :=
  exists pre post : string, hay = (pre ++ needle ++ post)%string.

(** The dictionary [Baseline.predict_ride_details] makes of the values. *)
Definition baseline_response {C : Collaborators}
  (out : py (option Baseline.RideValues)) : py Baseline.response :=
  match out with
  | Raised e => Raised e
  | Returned None =>
      Returned
        (Baseline.ErrorDict
           "Invalid coordinates format. Expected (latitude, longitude).")
  | Returned (Some v) => Returned (Baseline.ResultDict (Baseline.render v))
  end.

(** The documented ranges of the three draws of the [random] module. *)
Definition rng_in_range (C : Collaborators) : Prop :=
  (forall (a b : R) (g : rng), a <= b -> a <= fst (random_uniform a b g) <= b)
  /\ (forall (a b : Z) (g : rng),
        (a <= b)%Z -> (a <= fst (random_randint a b g) <= b)%Z)
  /\ (forall (options : list Z) (g : rng),
        options <> [] -> In (fst (random_choice options g)) options).

(** * Properties *)

(** ** Facts of real analysis *)

Lemma sin_half_sqr (x : R) : (sin (x / 2))² = (1 - cos x) / 2.
Proof.
  replace x with (2 * (x / 2)) at 2 by field.
  rewrite cos_2a_sin. unfold Rsqr. field.
Qed.


Lemma sin_lower_cubic (x : R) : 0 <= x -> x <= 1 -> x - x ^ 3 / 6 <= sin x.
Proof.
  intros H0 H1.
  assert (Hpi : x <= PI) by (pose proof PI2_1; lra).
  destruct (SIN x H0 Hpi) as [Hlb _].
  unfold sin_lb, sin_approx, sin_term in Hlb. cbn [sum_f_R0] in Hlb.
  replace (INR (fact (2 * 0 + 1))) with 1 in Hlb by (cbn; lra).
  replace (INR (fact (2 * 1 + 1))) with 6 in Hlb
    by (rewrite INR_IZR_INZ; apply f_equal; reflexivity).
  replace (INR (fact (2 * 2 + 1))) with 120 in Hlb
    by (rewrite INR_IZR_INZ; apply f_equal; reflexivity).
  replace (INR (fact (2 * 3 + 1))) with 5040 in Hlb
    by (rewrite INR_IZR_INZ; apply f_equal; reflexivity).
  cbn [Nat.mul Nat.add pow] in Hlb.
  assert (H5 : 0 <= x ^ 5) by (apply pow_le; exact H0).
  assert (H7 : x ^ 7 <= x ^ 5).
  { replace (x ^ 7) with (x ^ 5 * (x * x)) by ring.
    replace (x ^ 5) with (x ^ 5 * 1) at 2 by ring.
    apply Rmult_le_compat_l; [exact H5 | nra]. }
  cbn [pow] in H5, H7 |- *. lra.
Qed.

Lemma sin_abs_le_pos (x : R) : 0 <= x -> - x <= sin x <= x.
Proof.
  intros [Hx | <-]; [| rewrite sin_0; lra].
  split.
  - destruct (Rle_or_lt x 1) as [H1 | H1].
    + assert (0 <= sin x); [| lra].
      apply sin_ge_0; [lra | pose proof PI2_1; lra].
    + pose proof (SIN_bound x). lra.
  - left. apply sin_lt_x. exact Hx.
Qed.

Lemma sin_sqr_le (x : R) : (sin x)² <= x².
Proof.
  destruct (Rle_or_lt 0 x) as [Hx | Hx].
  - destruct (sin_abs_le_pos x Hx) as [Ha Hb]. unfold Rsqr. nra.
  - assert (Hx' : 0 <= - x) by lra.
    destruct (sin_abs_le_pos (- x) Hx') as [Ha Hb].
    rewrite sin_neg in Ha, Hb. unfold Rsqr. nra.
Qed.

Lemma atan_le_x (t : R) : 0 <= t -> atan t <= t.
Proof.
  intros [Ht | <-]; [| rewrite atan_0; lra].
  assert (D : derivable (id - atan)%F).
  { intro x. apply derivable_pt_minus; [apply derivable_pt_id | apply derivable_pt_atan]. }
  assert (Hd : forall x : R, 0 < x < t -> 0 <= derive_pt (id - atan)%F x (D x)).
  { intros x _.
    rewrite (pr_nu _ _ (D x)
               (derivable_pt_minus _ _ _ (derivable_pt_id x) (derivable_pt_atan x))).
    rewrite derive_pt_minus, derive_pt_id, derive_pt_atan.
    assert (H1 : 1 <= 1 + x²) by (pose proof (Rle_0_sqr x); lra).
    assert (H2 : 1 / (1 + x²) <= 1).
    { unfold Rdiv. rewrite Rmult_1_l. rewrite <- Rinv_1 at 2.
      apply Rinv_le_contravar; lra. }
    lra. }
  pose proof (MVT.derive_increasing_interv_var 0 t (id - atan)%F D Ht Hd 0 t) as H.
  unfold minus_fct, id in H. rewrite atan_0 in H.
  assert (0 - 0 <= t - atan t) by (apply H; lra). lra.
Qed.

Lemma x_le_atan_sin (t : R) : 0 <= t -> sin (atan t) <= atan t.
Proof.
  intros [Ht | <-]; [| rewrite atan_0, sin_0; lra].
  left. apply sin_lt_x. rewrite <- atan_0. apply atan_increasing. exact Ht.
Qed.


Lemma PI_gt_3 : 3 < PI.
Proof. pose proof PI2_3_2. lra. Qed.


(** ** The haversine quantity [a] and the distance on reals *)

Lemma hav_a_cos (lat1 lon1 lat2 lon2 : R) :
  let phi1 := lat1 * (PI / 180) in
  let phi2 := lat2 * (PI / 180) in
  let dlam := lon2 * (PI / 180) - lon1 * (PI / 180) in
  hav_a lat1 lon1 lat2 lon2
  = (1 - (sin phi1 * sin phi2 + cos phi1 * cos phi2 * cos dlam)) / 2.
Proof.
  intros phi1 phi2 dlam. unfold hav_a. fold phi1 phi2 dlam.
  rewrite !sin_half_sqr, cos_minus. field.
Qed.

Lemma hav_a_range (lat1 lon1 lat2 lon2 : R) :
  0 <= hav_a lat1 lon1 lat2 lon2 <= 1.
Proof.
  rewrite hav_a_cos.
  set (phi1 := lat1 * (PI / 180)). set (phi2 := lat2 * (PI / 180)).
  set (dlam := lon2 * (PI / 180) - lon1 * (PI / 180)).
  pose proof (sin2_cos2 phi1) as H1. pose proof (sin2_cos2 phi2) as H2.
  pose proof (COS_bound dlam) as [Hk1 Hk2].
  unfold Rsqr in H1, H2.
  set (s1 := sin phi1) in *. set (s2 := sin phi2) in *.
  set (c1 := cos phi1) in *. set (c2 := cos phi2) in *.
  set (k := cos dlam) in *.
  assert (Hk : 0 <= 1 - k * k) by nra.
  assert (Hc : 0 <= c2 * c2 * (1 - k * k)).
  { apply Rmult_le_pos; [nra | exact Hk]. }
  pose proof (Rle_0_sqr (s1 - s2)) as Q1. pose proof (Rle_0_sqr (c1 - k * c2)) as Q2.
  pose proof (Rle_0_sqr (s1 + s2)) as Q3. pose proof (Rle_0_sqr (c1 + k * c2)) as Q4.
  unfold Rsqr in Q1, Q2, Q3, Q4.
  split; nra.
Qed.

Lemma math_sqrt_nonneg (x : R) : 0 <= x -> math_sqrt x = Returned (sqrt x).
Proof.
  intros Hx. unfold math_sqrt. destruct (Rlt_dec x 0) as [H | H]; [lra | reflexivity].
Qed.

Lemma math_atan2_nonneg (y x : R) : 0 <= y -> 0 <= x -> 0 <= math_atan2 y x.
Proof.
  intros Hy Hx. unfold math_atan2.
  destruct (Rlt_dec 0 x) as [Hx0 | Hx0].
  - rewrite <- atan_0. destruct Hy as [Hy | <-].
    + left. apply atan_increasing. apply Rdiv_lt_0_compat; assumption.
    + unfold Rdiv. rewrite Rmult_0_l. right. reflexivity.
  - destruct (Rlt_dec x 0) as [Hx1 | Hx1]; [lra |].
    destruct (Rlt_dec 0 y) as [Hy0 | Hy0].
    + pose proof PI_RGT_0. lra.
    + destruct (Rlt_dec y 0); lra.
Qed.

Lemma math_atan2_0_1 : math_atan2 0 1 = 0.
Proof.
  unfold math_atan2. destruct (Rlt_dec 0 1) as [H | H]; [| lra].
  unfold Rdiv. rewrite Rmult_0_l. apply atan_0.
Qed.

Lemma hav_a_same (lat lon : R) : hav_a lat lon lat lon = 0.
Proof.
  unfold hav_a. cbv zeta.
  replace ((lat * (PI / 180) - lat * (PI / 180)) / 2) with 0 by field.
  replace ((lon * (PI / 180) - lon * (PI / 180)) / 2) with 0 by field.
  rewrite sin_0. unfold Rsqr. ring.
Qed.

Lemma geodesic_km_same (lat lon : R) : geodesic_km lat lon lat lon = 0.
Proof.
  unfold geodesic_km. cbv zeta. rewrite hav_a_same.
  rewrite Rminus_0_r, sqrt_0, sqrt_1, math_atan2_0_1. ring.
Qed.

Lemma hav_a_sym (lat1 lon1 lat2 lon2 : R) :
  hav_a lat1 lon1 lat2 lon2 = hav_a lat2 lon2 lat1 lon1.
Proof.
  unfold hav_a. cbv zeta.
  replace ((lat1 * (PI / 180) - lat2 * (PI / 180)) / 2)
    with (- ((lat2 * (PI / 180) - lat1 * (PI / 180)) / 2)) by field.
  replace ((lon1 * (PI / 180) - lon2 * (PI / 180)) / 2)
    with (- ((lon2 * (PI / 180) - lon1 * (PI / 180)) / 2)) by field.
  rewrite !sin_neg, <- !Rsqr_neg. ring.
Qed.

Lemma geodesic_km_sym (lat1 lon1 lat2 lon2 : R) :
  geodesic_km lat1 lon1 lat2 lon2 = geodesic_km lat2 lon2 lat1 lon1.
Proof. unfold geodesic_km. rewrite (hav_a_sym lat1 lon1 lat2 lon2). reflexivity. Qed.

Lemma geodesic_km_nonneg (lat1 lon1 lat2 lon2 : R) :
  0 <= geodesic_km lat1 lon1 lat2 lon2.
Proof.
  unfold geodesic_km. cbv zeta.
  pose proof (math_atan2_nonneg (sqrt (hav_a lat1 lon1 lat2 lon2))
                (sqrt (1 - hav_a lat1 lon1 lat2 lon2))
                (sqrt_pos _) (sqrt_pos _)).
  lra.
Qed.


Lemma sin_atan_ratio (a : R) :
  0 <= a -> a < 1 -> sin (atan (sqrt a / sqrt (1 - a))) = sqrt a.
Proof.
  intros H0 H1. rewrite sin_atan.
  assert (Hs : 0 < sqrt (1 - a)) by (apply sqrt_lt_R0; lra).
  assert (Hq : 1 + (sqrt a / sqrt (1 - a))² = (/ sqrt (1 - a))²).
  { unfold Rdiv. rewrite Rsqr_mult, Rsqr_inv'.
    rewrite !Rsqr_sqrt by lra. field. lra. }
  rewrite Hq. rewrite sqrt_Rsqr.
  - field. lra.
  - left. apply Rinv_0_lt_compat. exact Hs.
Qed.

Lemma geodesic_km_lower (lat1 lon1 lat2 lon2 : R) :
  6371 * (2 * sqrt (hav_a lat1 lon1 lat2 lon2)) <= geodesic_km lat1 lon1 lat2 lon2.
Proof.
  unfold geodesic_km. cbv zeta.
  destruct (hav_a_range lat1 lon1 lat2 lon2) as [H0 H1].
  set (a := hav_a lat1 lon1 lat2 lon2) in *.
  assert (sqrt a <= math_atan2 (sqrt a) (sqrt (1 - a))); [| lra].
  destruct H1 as [H1 | H1].
  - assert (Hs : 0 < sqrt (1 - a)) by (apply sqrt_lt_R0; lra).
    unfold math_atan2. destruct (Rlt_dec 0 (sqrt (1 - a))) as [_ | N]; [| lra].
    rewrite <- (sin_atan_ratio a H0 H1) at 1.
    apply x_le_atan_sin. apply Rle_mult_inv_pos; [apply sqrt_pos | exact Hs].
  - rewrite H1. replace (1 - 1) with 0 by ring. rewrite sqrt_0, sqrt_1.
    unfold math_atan2.
    destruct (Rlt_dec 0 0) as [N | _]; [lra |].
    destruct (Rlt_dec 0 1) as [_ | N]; [| lra].
    pose proof PI2_1. lra.
Qed.

Lemma geodesic_km_upper (lat1 lon1 lat2 lon2 : R) :
  hav_a lat1 lon1 lat2 lon2 < 1 ->
  geodesic_km lat1 lon1 lat2 lon2
  <= 6371 * (2 * (sqrt (hav_a lat1 lon1 lat2 lon2)
                  / sqrt (1 - hav_a lat1 lon1 lat2 lon2))).
Proof.
  intros H1. unfold geodesic_km. cbv zeta.
  destruct (hav_a_range lat1 lon1 lat2 lon2) as [H0 _].
  set (a := hav_a lat1 lon1 lat2 lon2) in *.
  assert (Hs : 0 < sqrt (1 - a)) by (apply sqrt_lt_R0; lra).
  unfold math_atan2. destruct (Rlt_dec 0 (sqrt (1 - a))) as [_ | N]; [| lra].
  assert (atan (sqrt a / sqrt (1 - a)) <= sqrt a / sqrt (1 - a)); [| lra].
  apply atan_le_x. apply Rle_mult_inv_pos; [apply sqrt_pos | exact Hs].
Qed.

Lemma hav_a_upper (lat1 lon1 lat2 lon2 : R) :
  hav_a lat1 lon1 lat2 lon2
  <= ((lat2 * (PI / 180) - lat1 * (PI / 180)) / 2)²
     + ((lon2 * (PI / 180) - lon1 * (PI / 180)) / 2)².
Proof.
  unfold hav_a. cbv zeta.
  set (x := (lat2 * (PI / 180) - lat1 * (PI / 180)) / 2).
  set (y := (lon2 * (PI / 180) - lon1 * (PI / 180)) / 2).
  pose proof (sin_sqr_le x) as Hx. pose proof (sin_sqr_le y) as Hy.
  pose proof (Rle_0_sqr (sin y)) as Hs.
  pose proof (COS_bound (lat1 * (PI / 180))) as [A1 A2].
  pose proof (COS_bound (lat2 * (PI / 180))) as [B1 B2].
  assert (Hc : cos (lat1 * (PI / 180)) * cos (lat2 * (PI / 180)) <= 1) by nra.
  assert (cos (lat1 * (PI / 180)) * cos (lat2 * (PI / 180)) * (sin y)² <= (sin y)²) by nra.
  lra.
Qed.

(** Two points whose coordinates differ by at most [e] degrees each. *)
Lemma geodesic_km_near (lat1 lon1 lat2 lon2 e s : R) :
  Rabs (lat2 - lat1) <= e -> Rabs (lon2 - lon1) <= e ->
  0 <= s -> s <= 1 / 2 -> 2 * (e * (4 / 360))² <= s² ->
  geodesic_km lat1 lon1 lat2 lon2 <= 6371 * (2 * (s / (1 - s²))).
Proof.
  intros Hlat Hlon Hs0 Hs1 Hes.
  pose proof PI_4 as P4. pose proof PI_RGT_0 as P0.
  assert (He : 0 <= e) by (pose proof (Rabs_pos (lat2 - lat1)); lra).
  assert (Hbound : forall u v : R, Rabs (v - u) <= e ->
            ((v * (PI / 180) - u * (PI / 180)) / 2)² <= (e * (4 / 360))²).
  { intros u v Huv.
    replace ((v * (PI / 180) - u * (PI / 180)) / 2) with ((v - u) * (PI / 360)) by field.
    rewrite (Rsqr_abs ((v - u) * (PI / 360))). rewrite Rabs_mult.
    rewrite (Rabs_pos_eq (PI / 360)) by lra.
    apply Rsqr_incr_1.
    - apply Rmult_le_compat; try lra. apply Rabs_pos.
    - apply Rmult_le_pos; [apply Rabs_pos | lra].
    - apply Rmult_le_pos; lra. }
  pose proof (hav_a_upper lat1 lon1 lat2 lon2) as Hup.
  pose proof (Hbound lat1 lat2 Hlat) as H1. pose proof (Hbound lon1 lon2 Hlon) as H2.
  destruct (hav_a_range lat1 lon1 lat2 lon2) as [Ha0 _].
  assert (Has : hav_a lat1 lon1 lat2 lon2 <= s²) by lra.
  assert (Hs2 : s² <= 1 / 4) by (unfold Rsqr; nra).
  assert (Ha1 : hav_a lat1 lon1 lat2 lon2 < 1) by lra.
  apply Rle_trans with (1 := geodesic_km_upper lat1 lon1 lat2 lon2 Ha1).
  set (a := hav_a lat1 lon1 lat2 lon2) in *.
  assert (Hsq : sqrt a <= s).
  { rewrite <- (sqrt_Rsqr s Hs0). apply sqrt_le_1; [exact Ha0 | apply Rle_0_sqr | exact Has]. }
  assert (Hsq1 : 1 - s² <= sqrt (1 - a)).
  { apply Rle_trans with (1 - a); [lra |].
    assert (Hu : 0 <= 1 - a <= 1) by lra.
    pose proof (sqrt_pos (1 - a)) as Hp.
    pose proof (sqrt_sqrt (1 - a) (proj1 Hu)) as Hss.
    assert (Hr1 : sqrt (1 - a) <= 1).
    { apply Rle_trans with (sqrt 1); [apply sqrt_le_1; lra | rewrite sqrt_1; lra]. }
    rewrite <- Hss at 1.
    rewrite <- (Rmult_1_r (sqrt (1 - a))) at 3.
    apply Rmult_le_compat_l; assumption. }
  assert (Hd : 0 < 1 - s²) by lra.
  assert (sqrt a / sqrt (1 - a) <= s / (1 - s²)); [| lra].
  unfold Rdiv. apply Rmult_le_compat; try assumption.
  - apply sqrt_pos.
  - left. apply Rinv_0_lt_compat. lra.
  - apply Rinv_le_contravar; assumption.
Qed.

(** Two points of valid latitude whose latitudes differ by [dlat] degrees. *)
Lemma geodesic_km_far (lat1 lon1 lat2 lon2 : R) :
  -90 <= lat1 <= 90 -> -90 <= lat2 <= 90 ->
  6371 * (2 * sin (Rabs (lat2 - lat1) * (PI / 360)))
  <= geodesic_km lat1 lon1 lat2 lon2.
Proof.
  intros L1 L2.
  pose proof PI_RGT_0 as P0.
  apply Rle_trans with (2 := geodesic_km_lower lat1 lon1 lat2 lon2).
  assert (sin (Rabs (lat2 - lat1) * (PI / 360)) <= sqrt (hav_a lat1 lon1 lat2 lon2)); [| lra].
  assert (Hc : forall l, -90 <= l <= 90 -> 0 <= cos (l * (PI / 180))).
  { intros l Hl. apply cos_ge_0; nra. }
  assert (Hx : 0 <= Rabs (lat2 - lat1) * (PI / 360)).
  { apply Rmult_le_pos; [apply Rabs_pos | lra]. }
  assert (Hx2 : Rabs (lat2 - lat1) * (PI / 360) <= PI).
  { assert (Rabs (lat2 - lat1) <= 180) by (apply Rabs_le; lra). nra. }
  pose proof (sin_ge_0 _ Hx Hx2) as Hs.
  rewrite <- (sqrt_Rsqr _ Hs). apply sqrt_le_1; [apply Rle_0_sqr | apply hav_a_range |].
  unfold hav_a. cbv zeta.
  replace ((lat2 * (PI / 180) - lat1 * (PI / 180)) / 2) with ((lat2 - lat1) * (PI / 360)) by field.
  assert (Heq : (sin (Rabs (lat2 - lat1) * (PI / 360)))² = (sin ((lat2 - lat1) * (PI / 360)))²).
  { unfold Rabs. destruct (Rcase_abs (lat2 - lat1)); [| reflexivity].
    replace (- (lat2 - lat1) * (PI / 360)) with (- ((lat2 - lat1) * (PI / 360))) by ring.
    rewrite sin_neg, <- Rsqr_neg. reflexivity. }
  rewrite Heq.
  pose proof (Hc lat1 L1). pose proof (Hc lat2 L2).
  pose proof (Rle_0_sqr (sin ((lon2 * (PI / 180) - lon1 * (PI / 180)) / 2))).
  assert (0 <= cos (lat1 * (PI / 180)) * cos (lat2 * (PI / 180))
               * (sin ((lon2 * (PI / 180) - lon1 * (PI / 180)) / 2))²).
  { apply Rmult_le_pos; [apply Rmult_le_pos |]; assumption. }
  lra.
Qed.

(** Latitudes at least [2/100] of a degree apart are more than 2 km apart. *)
Lemma geodesic_km_far_2 (lat1 lon1 lat2 lon2 : R) :
  -90 <= lat1 <= 90 -> -90 <= lat2 <= 90 ->
  2 / 100 <= Rabs (lat2 - lat1) ->
  2 < geodesic_km lat1 lon1 lat2 lon2.
Proof.
  intros L1 L2 Hd.
  apply Rlt_le_trans with (2 := geodesic_km_far lat1 lon1 lat2 lon2 L1 L2).
  pose proof PI_gt_3 as P3. pose proof PI_4 as P4.
  assert (Hd2 : Rabs (lat2 - lat1) <= 180) by (apply Rabs_le; lra).
  set (x := Rabs (lat2 - lat1) * (PI / 360)).
  assert (Hx0 : 1 / 6000 <= x) by (unfold x; nra).
  assert (Hx1 : x <= PI / 2) by (unfold x; nra).
  assert (Hs : sin (1 / 6000) <= sin x) by (apply sin_incr_1; lra).
  assert (1 / 6000 - (1 / 6000) ^ 3 / 6 <= sin (1 / 6000))
    by (apply sin_lower_cubic; lra).
  lra.
Qed.

(** ** The code's distance is the distance on reals *)

Lemma haversine_distance_spec (lat1 lon1 lat2 lon2 : pyval) :
  haversine_distance lat1 lon1 lat2 lon2
  = (a1 <- as_float lat1 ;; o1 <- as_float lon1 ;;
     a2 <- as_float lat2 ;; o2 <- as_float lon2 ;;
     Returned (geodesic_km a1 o1 a2 o2)).
Proof.
  unfold haversine_distance, math_radians.
  destruct (as_float lat1) as [a1 | e1]; cbn [bind]; [| reflexivity].
  destruct (as_float lon1) as [o1 | e2]; cbn [bind]; [| reflexivity].
  destruct (as_float lat2) as [a2 | e3]; cbn [bind]; [| reflexivity].
  destruct (as_float lon2) as [o2 | e4]; cbn [bind]; [| reflexivity].
  unfold geodesic_km.
  pose proof (hav_a_range a1 o1 a2 o2) as [H0 H1].
  unfold hav_a in *. cbv zeta in *.
  replace (sin ((a2 * (PI / 180) - a1 * (PI / 180)) / 2) ^ 2)
    with (sin ((a2 * (PI / 180) - a1 * (PI / 180)) / 2))² by (unfold Rsqr; ring).
  replace (sin ((o2 * (PI / 180) - o1 * (PI / 180)) / 2) ^ 2)
    with (sin ((o2 * (PI / 180) - o1 * (PI / 180)) / 2))² by (unfold Rsqr; ring).
  rewrite math_sqrt_nonneg by exact H0. cbn [bind].
  rewrite math_sqrt_nonneg by lra. cbn [bind]. reflexivity.
Qed.

Lemma haversine_distance_numeric (lat1 lon1 lat2 lon2 : pyval) (a1 o1 a2 o2 : R) :
  as_float lat1 = Returned a1 -> as_float lon1 = Returned o1 ->
  as_float lat2 = Returned a2 -> as_float lon2 = Returned o2 ->
  haversine_distance lat1 lon1 lat2 lon2 = Returned (geodesic_km a1 o1 a2 o2).
Proof.
  intros H1 H2 H3 H4. rewrite haversine_distance_spec, H1, H2, H3, H4. reflexivity.
Qed.

Lemma as_float_raises (v : pyval) (e : exn) : as_float v = Raised e -> e = TypeError.
Proof. destruct v; cbn; intros H; inversion H; reflexivity. Qed.

(** C8.  For numeric coordinates: the distance from a point to itself is 0
    (for float coordinates the call returns 0; in general whatever it returns
    is 0), the outcome is the same when the two points are exchanged, and a
    returned distance is never negative; the same holds of the copy in
    [predict_ride_details.py]. *)
Theorem haversine_distance_zero_symmetric_nonneg :
  forall lat1 lon1 lat2 lon2 : pyval,
    numeric lat1 -> numeric lon1 -> numeric lat2 -> numeric lon2 ->
    ((forall d : R, haversine_distance lat1 lon1 lat1 lon1 = Returned d -> d = 0)
     /\ haversine_distance lat1 lon1 lat2 lon2 = haversine_distance lat2 lon2 lat1 lon1
     /\ (forall d : R, haversine_distance lat1 lon1 lat2 lon2 = Returned d -> 0 <= d))
    /\ ((forall d : R,
           PredictRideDetails.haversine_distance lat1 lon1 lat1 lon1 = Returned d ->
           d = 0)
        /\ PredictRideDetails.haversine_distance lat1 lon1 lat2 lon2
           = PredictRideDetails.haversine_distance lat2 lon2 lat1 lon1
        /\ (forall d : R,
              PredictRideDetails.haversine_distance lat1 lon1 lat2 lon2 = Returned d ->
              0 <= d))
    /\ (forall lat lon : R,
          haversine_distance (PyFloat lat) (PyFloat lon) (PyFloat lat) (PyFloat lon)
          = Returned 0
          /\ PredictRideDetails.haversine_distance
               (PyFloat lat) (PyFloat lon) (PyFloat lat) (PyFloat lon)
             = Returned 0).
Proof.
  intros lat1 lon1 lat2 lon2 [a1 H1] [o1 H2] [a2 H3] [o2 H4].
  change PredictRideDetails.haversine_distance with haversine_distance.
  assert (G : (forall d : R, haversine_distance lat1 lon1 lat1 lon1 = Returned d -> d = 0)
     /\ haversine_distance lat1 lon1 lat2 lon2 = haversine_distance lat2 lon2 lat1 lon1
     /\ (forall d : R, haversine_distance lat1 lon1 lat2 lon2 = Returned d -> 0 <= d)).
  { rewrite (haversine_distance_numeric _ _ _ _ _ _ _ _ H1 H2 H1 H2).
    rewrite (haversine_distance_numeric _ _ _ _ _ _ _ _ H1 H2 H3 H4).
    rewrite (haversine_distance_numeric _ _ _ _ _ _ _ _ H3 H4 H1 H2).
    rewrite geodesic_km_same, (geodesic_km_sym a2 o2 a1 o1).
    split; [| split].
    - intros d Hd. injection Hd as <-. reflexivity.
    - reflexivity.
    - intros d Hd. injection Hd as <-. apply geodesic_km_nonneg. }
  split; [exact G |]. split; [exact G |].
  intros lat lon.
  rewrite (haversine_distance_numeric (PyFloat lat) (PyFloat lon) (PyFloat lat) (PyFloat lon)
             lat lon lat lon eq_refl eq_refl eq_refl eq_refl).
  rewrite geodesic_km_same. split; reflexivity.
Qed.

Lemma haversine_distance_zero_symmetric_nonneg_witness :
  ((forall d : R,
      haversine_distance (PyFloat 23.785) (PyFloat 90.415)
        (PyFloat 23.785) (PyFloat 90.415) = Returned d ->
      d = 0)
   /\ haversine_distance (PyFloat 23.785) (PyFloat 90.415) (PyInt 24) (PyInt 90)
      = haversine_distance (PyInt 24) (PyInt 90) (PyFloat 23.785) (PyFloat 90.415)
   /\ (forall d : R,
         haversine_distance (PyFloat 23.785) (PyFloat 90.415) (PyInt 24) (PyInt 90)
         = Returned d ->
         0 <= d))
  /\ ((forall d : R,
         PredictRideDetails.haversine_distance
           (PyFloat 23.785) (PyFloat 90.415) (PyFloat 23.785) (PyFloat 90.415)
         = Returned d ->
         d = 0)
      /\ PredictRideDetails.haversine_distance
           (PyFloat 23.785) (PyFloat 90.415) (PyInt 24) (PyInt 90)
         = PredictRideDetails.haversine_distance
             (PyInt 24) (PyInt 90) (PyFloat 23.785) (PyFloat 90.415)
      /\ (forall d : R,
            PredictRideDetails.haversine_distance
              (PyFloat 23.785) (PyFloat 90.415) (PyInt 24) (PyInt 90) = Returned d ->
            0 <= d))
  /\ (forall lat lon : R,
        haversine_distance (PyFloat lat) (PyFloat lon) (PyFloat lat) (PyFloat lon)
        = Returned 0
        /\ PredictRideDetails.haversine_distance
             (PyFloat lat) (PyFloat lon) (PyFloat lat) (PyFloat lon)
           = Returned 0).
Proof.
  apply (haversine_distance_zero_symmetric_nonneg
           (PyFloat 23.785) (PyFloat 90.415) (PyInt 24) (PyInt 90));
    eexists; reflexivity.
Defined.

(** ** Surge zones *)

(** The surge multiplier of a pickup at real coordinates. *)
Lemma get_surge_multiplier_numeric (lat lon : pyval) (x y : R) :
  as_float lat = Returned x -> as_float lon = Returned y ->
  get_surge_multiplier lat lon
  = Returned (if Rle_dec (geodesic_km x y 23.78 90.41) 2.0 then 1.5
              else if Rle_dec (geodesic_km x y 23.75 90.38) 2.0 then 1.3
              else if Rle_dec (geodesic_km x y 23.72 90.40) 2.0 then 1.8
              else 1.0).
Proof.
  intros Hx Hy. unfold get_surge_multiplier, SURGE_ZONE_CENTERS.
  cbn [surge_scan]. unfold SURGE_RADIUS_KM.
  rewrite !(fun c d => haversine_distance_numeric lat lon (PyFloat c) (PyFloat d) x y c d Hx Hy eq_refl eq_refl).
  cbn [bind].
  destruct (Rle_dec (geodesic_km x y 23.78 90.41) 2.0); [reflexivity |].
  destruct (Rle_dec (geodesic_km x y 23.75 90.38) 2.0); [reflexivity |].
  destruct (Rle_dec (geodesic_km x y 23.72 90.40) 2.0); reflexivity.
Qed.

Lemma zone_centers_apart :
  2.0 < geodesic_km 23.75 90.38 23.78 90.41
  /\ 2.0 < geodesic_km 23.72 90.40 23.78 90.41
  /\ 2.0 < geodesic_km 23.72 90.40 23.75 90.38.
Proof.
  repeat split.
  - apply Rle_lt_trans with 2; [lra |]. apply geodesic_km_far_2; try lra.
    replace (23.78 - 23.75) with (3 / 100) by lra. rewrite Rabs_pos_eq; lra.
  - apply Rle_lt_trans with 2; [lra |]. apply geodesic_km_far_2; try lra.
    replace (23.78 - 23.72) with (6 / 100) by lra. rewrite Rabs_pos_eq; lra.
  - apply Rle_lt_trans with 2; [lra |]. apply geodesic_km_far_2; try lra.
    replace (23.75 - 23.72) with (3 / 100) by lra. rewrite Rabs_pos_eq; lra.
Qed.

(** C2.  The resolver visits the zones (23.78,90.41) 1.5, (23.75,90.38) 1.3,
    (23.72,90.40) 1.8 in this order and returns the multiplier of the first
    whose center is at most 2.0 km from the pickup; at a zone center it
    returns that zone's multiplier; when the three distances are computed
    and each is more than 2.0 km it returns 1.0. *)
Theorem get_surge_multiplier_first_zone_in_radius :
  forall pickup_lat pickup_lon : pyval,
    (get_surge_multiplier pickup_lat pickup_lon
     = (d1 <- haversine_distance pickup_lat pickup_lon (PyFloat 23.78) (PyFloat 90.41) ;;
        if Rle_dec d1 2.0 then Returned 1.5 else
        d2 <- haversine_distance pickup_lat pickup_lon (PyFloat 23.75) (PyFloat 90.38) ;;
        if Rle_dec d2 2.0 then Returned 1.3 else
        d3 <- haversine_distance pickup_lat pickup_lon (PyFloat 23.72) (PyFloat 90.40) ;;
        if Rle_dec d3 2.0 then Returned 1.8 else Returned 1.0))
    /\ (forall d1 d2 d3 : R,
          haversine_distance pickup_lat pickup_lon (PyFloat 23.78) (PyFloat 90.41)
          = Returned d1 ->
          haversine_distance pickup_lat pickup_lon (PyFloat 23.75) (PyFloat 90.38)
          = Returned d2 ->
          haversine_distance pickup_lat pickup_lon (PyFloat 23.72) (PyFloat 90.40)
          = Returned d3 ->
          2.0 < d1 -> 2.0 < d2 -> 2.0 < d3 ->
          get_surge_multiplier pickup_lat pickup_lon = Returned 1.0)
    /\ get_surge_multiplier (PyFloat 23.78) (PyFloat 90.41) = Returned 1.5
    /\ get_surge_multiplier (PyFloat 23.75) (PyFloat 90.38) = Returned 1.3
    /\ get_surge_multiplier (PyFloat 23.72) (PyFloat 90.40) = Returned 1.8.
Proof.
  intros pickup_lat pickup_lon.
  destruct zone_centers_apart as [Z21 [Z31 Z32]].
  split; [reflexivity |]. split; [| repeat split].
  - intros d1 d2 d3 H1 H2 H3 F1 F2 F3.
    unfold get_surge_multiplier, SURGE_ZONE_CENTERS. cbn [surge_scan].
    unfold SURGE_RADIUS_KM.
    rewrite H1, H2, H3. cbn [bind].
    destruct (Rle_dec d1 2.0); [lra |].
    destruct (Rle_dec d2 2.0); [lra |].
    destruct (Rle_dec d3 2.0); [lra | reflexivity].
  - rewrite (get_surge_multiplier_numeric (PyFloat 23.78) (PyFloat 90.41) 23.78 90.41 eq_refl eq_refl).
    rewrite geodesic_km_same.
    destruct (Rle_dec 0 2.0); [reflexivity | lra].
  - rewrite (get_surge_multiplier_numeric (PyFloat 23.75) (PyFloat 90.38) 23.75 90.38 eq_refl eq_refl).
    rewrite geodesic_km_same.
    destruct (Rle_dec (geodesic_km 23.75 90.38 23.78 90.41) 2.0); [lra |].
    destruct (Rle_dec 0 2.0); [reflexivity | lra].
  - rewrite (get_surge_multiplier_numeric (PyFloat 23.72) (PyFloat 90.40) 23.72 90.40 eq_refl eq_refl).
    rewrite geodesic_km_same.
    destruct (Rle_dec (geodesic_km 23.72 90.40 23.78 90.41) 2.0); [lra |].
    destruct (Rle_dec (geodesic_km 23.72 90.40 23.75 90.38) 2.0); [lra |].
    destruct (Rle_dec 0 2.0); [reflexivity | lra].
Qed.

Lemma origin_far_from_zones :
  2.0 < geodesic_km 0 0 23.78 90.41
  /\ 2.0 < geodesic_km 0 0 23.75 90.38
  /\ 2.0 < geodesic_km 0 0 23.72 90.40.
Proof.
  repeat split; (apply Rle_lt_trans with 2; [lra |]);
    apply geodesic_km_far_2; try lra; rewrite Rabs_pos_eq; lra.
Qed.

Lemma get_surge_multiplier_first_zone_in_radius_witness :
  get_surge_multiplier (PyFloat 0) (PyFloat 0) = Returned 1.0.
Proof.
  destruct origin_far_from_zones as [F1 [F2 F3]].
  destruct (get_surge_multiplier_first_zone_in_radius (PyFloat 0) (PyFloat 0))
    as [_ [Hfar _]].
  apply (Hfar _ _ _
           (haversine_distance_numeric (PyFloat 0) (PyFloat 0) (PyFloat 23.78) (PyFloat 90.41)
              0 0 23.78 90.41 eq_refl eq_refl eq_refl eq_refl)
           (haversine_distance_numeric (PyFloat 0) (PyFloat 0) (PyFloat 23.75) (PyFloat 90.38)
              0 0 23.75 90.38 eq_refl eq_refl eq_refl eq_refl)
           (haversine_distance_numeric (PyFloat 0) (PyFloat 0) (PyFloat 23.72) (PyFloat 90.40)
              0 0 23.72 90.40 eq_refl eq_refl eq_refl eq_refl) F1 F2 F3).
Defined.

(** ** Prediction confidence *)

Lemma get_prediction_confidence_fold
  (distance_km : R) (time_of_day_hour is_rainy ride_category : Z) :
  get_prediction_confidence distance_km time_of_day_hour is_rainy ride_category
  = confidence_label
      (Z.max 1 (fold_left deduct
                  (penalty_conditions distance_km time_of_day_hour is_rainy ride_category)
                  3%Z)).
Proof. reflexivity. Qed.

Lemma fold_deduct_count (l : list bool) (score : Z) :
  fold_left deduct l score = (score - Z.of_nat (count_occ bool_dec l true))%Z.
Proof.
  revert score. induction l as [| b l IH]; intros score.
  - cbn. lia.
  - cbn [fold_left]. rewrite IH. destruct b; cbn [deduct count_occ].
    + destruct (bool_dec true true) as [_ | N]; [lia | contradiction].
    + destruct (bool_dec false true) as [E | _]; [discriminate E | lia].
Qed.

Lemma count_occ_permutation (l l' : list bool) :
  Permutation l l' -> count_occ bool_dec l true = count_occ bool_dec l' true.
Proof.
  intros P. induction P as [| b l l' _ IH | a b l | l l' l'' _ IH1 _ IH2].
  - reflexivity.
  - cbn. rewrite IH. reflexivity.
  - cbn. destruct (bool_dec b true), (bool_dec a true); reflexivity.
  - congruence.
Qed.

Lemma count_occ_implied (l l' : list bool) :
  Forall2 (fun p q => implb p q = true) l l' ->
  (count_occ bool_dec l true <= count_occ bool_dec l' true)%nat.
Proof.
  intros F. induction F as [| p q l l' Hpq _ IH].
  - apply Nat.le_refl.
  - destruct p, q; cbn in Hpq |- *; try discriminate Hpq; lia.
Qed.

Lemma confidence_label_rank (score : Z) :
  (1 <= score <= 3)%Z -> confidence_rank (confidence_label score) = score.
Proof.
  intros H. assert (D : score = 1%Z \/ score = 2%Z \/ score = 3%Z) by lia.
  destruct D as [-> | [-> | ->]]; reflexivity.
Qed.

Lemma spec_conditions_agree
  (distance_km : R) (time_of_day_hour is_rainy ride_category : Z) :
  ConfidenceSpec.penalties distance_km time_of_day_hour is_rainy ride_category
  = penalty_conditions distance_km time_of_day_hour is_rainy ride_category.
Proof.
  unfold ConfidenceSpec.penalties, penalty_conditions, ConfidenceSpec.in_range, rush_hour.
  cbn [existsb]. rewrite orb_false_r. reflexivity.
Qed.

Lemma spec_label_agrees (score : Z) :
  ConfidenceSpec.label_of score = confidence_label score.
Proof.
  unfold ConfidenceSpec.label_of, confidence_label.
  destruct (score =? 3)%Z eqn:E3.
  - apply Z.eqb_eq in E3. subst score. reflexivity.
  - destruct (score =? 2)%Z eqn:E2.
    + apply Z.eqb_eq in E2. subst score. reflexivity.
    + apply Z.eqb_neq in E3, E2.
      destruct score as [| p | p]; try reflexivity.
      destruct p as [[p | p |] | [p | p |] |]; try reflexivity; congruence.
Qed.

(** C3.  The Confidence Estimator equals the reference definition of the
    specification (3 minus the number of penalties that fire among distance
    over 30, rush hour, rain and Riksha or AutoRiksha, clamped at 1, mapped
    3 to High, 2 to Medium, else Low), and its result is one of the three
    labels. *)
Theorem get_prediction_confidence_refines_spec :
  forall (distance_km : R) (time_of_day_hour is_rainy ride_category : Z),
    get_prediction_confidence distance_km time_of_day_hour is_rainy ride_category
    = ConfidenceSpec.confidence distance_km time_of_day_hour is_rainy ride_category
    /\ In (get_prediction_confidence distance_km time_of_day_hour is_rainy ride_category)
          ["Low"%string; "Medium"%string; "High"%string].
Proof.
  intros distance_km time_of_day_hour is_rainy ride_category. split.
  - rewrite get_prediction_confidence_fold. unfold ConfidenceSpec.confidence.
    rewrite spec_conditions_agree, spec_label_agrees, fold_deduct_count. reflexivity.
  - rewrite get_prediction_confidence_fold.
    set (score := Z.max 1 _). unfold confidence_label.
    destruct (score =? 3)%Z; [cbn; tauto |].
    destruct (score =? 2)%Z; cbn; tauto.
Qed.

Lemma confidence_score_range (l : list bool) :
  (1 <= Z.max 1 (fold_left deduct l 3%Z) <= 3)%Z.
Proof. rewrite fold_deduct_count. lia. Qed.

(** C7.  When the second input triggers every penalty condition the first
    triggers, its label does not rank higher (Low < Medium < High); and the
    label does not depend on the order in which the four deductions are
    applied before the floor at 1. *)
Theorem get_prediction_confidence_monotone :
  forall (d1 : R) (h1 r1 c1 : Z) (d2 : R) (h2 r2 c2 : Z),
    Forall2 (fun p q => implb p q = true)
      (penalty_conditions d1 h1 r1 c1) (penalty_conditions d2 h2 r2 c2) ->
    (confidence_rank (get_prediction_confidence d2 h2 r2 c2)
     <= confidence_rank (get_prediction_confidence d1 h1 r1 c1))%Z
    /\ (forall order : list bool,
          Permutation order (penalty_conditions d1 h1 r1 c1) ->
          confidence_label (Z.max 1 (fold_left deduct order 3%Z))
          = get_prediction_confidence d1 h1 r1 c1).
Proof.
  intros d1 h1 r1 c1 d2 h2 r2 c2 Himp. split.
  - rewrite !get_prediction_confidence_fold.
    rewrite !confidence_label_rank by apply confidence_score_range.
    rewrite !fold_deduct_count. apply count_occ_implied in Himp. lia.
  - intros order P. rewrite get_prediction_confidence_fold, !fold_deduct_count.
    rewrite (count_occ_permutation _ _ P). reflexivity.
Qed.

Lemma Rgtb_true (x y : R) : y < x -> Rgtb x y = true.
Proof. intros H. unfold Rgtb. destruct (Rgt_dec x y) as [_ | N]; [reflexivity | lra]. Qed.

Lemma Rgtb_false (x y : R) : x <= y -> Rgtb x y = false.
Proof. intros H. unfold Rgtb. destruct (Rgt_dec x y) as [G | _]; [lra | reflexivity]. Qed.

Lemma get_prediction_confidence_monotone_witness :
  (confidence_rank (get_prediction_confidence 45 18 1 3)
   <= confidence_rank (get_prediction_confidence 12 18 0 0))%Z
  /\ (forall order : list bool,
        Permutation order (penalty_conditions 12 18 0 0) ->
        confidence_label (Z.max 1 (fold_left deduct order 3%Z))
        = get_prediction_confidence 12 18 0 0).
Proof.
  apply (get_prediction_confidence_monotone 12 18 0 0 45 18 1 3).
  unfold penalty_conditions.
  rewrite (Rgtb_false 12 30) by lra. rewrite (Rgtb_true 45 30) by lra.
  repeat constructor.
Defined.

(** ** Synthetic trips *)

Section TrainingFacts.
Context {C : Collaborators}.

Lemma generate_sample_in_bounds (g : rng) :
  sample_in_bounds (fst (generate_sample g)).
Proof.
  unfold generate_sample.
  destruct (random_uniform 1 50 g) as [distance_km g1].
  destruct (random_randint 0 23 g1) as [time_of_day_hour g2].
  destruct (random_randint 0 6 g2) as [day_of_week g3].
  destruct (random_choice [0%Z; 1%Z] g3) as [is_rainy g4].
  destruct (random_randint 0 4 g4) as [ride_category g5].
  destruct (ride_category =? 0)%Z eqn:E0;
    [| destruct (ride_category =? 1)%Z eqn:E1;
       [| destruct (ride_category =? 2)%Z eqn:E2;
          [| destruct (ride_category =? 3)%Z eqn:E3]]];
    destruct (random_uniform (-25) 25 g5) as [noise_fare g6];
    destruct (random_uniform (-5) 5 g6) as [noise_eta g7];
    cbn [fst]; unfold sample_in_bounds;
    cbn [ts_ride_category ts_distance_km ts_fare_bdt ts_eta_minutes];
    rewrite ?Z.eqb_eq, ?Z.eqb_neq in *;
    repeat split; try (intros ->; try discriminate; try lia);
    try apply Rmin_r; try apply Rmax_l;
    try (exfalso; lia).
Qed.

Lemma generate_synthetic_data_in_bounds (num_samples : nat) (g : rng) :
  List.length (fst (generate_synthetic_data num_samples g)) = num_samples
  /\ Forall sample_in_bounds (fst (generate_synthetic_data num_samples g)).
Proof.
  revert g. induction num_samples as [| n IH]; intros g.
  - split; [reflexivity | constructor].
  - cbn [generate_synthetic_data].
    pose proof (generate_sample_in_bounds g) as Hrow.
    destruct (generate_sample g) as [row g1].
    destruct (IH g1) as [Hlen Hall].
    destruct (generate_synthetic_data n g1) as [data g2].
    cbn [fst] in *. split; [cbn; rewrite Hlen; reflexivity | constructor; assumption].
Qed.

End TrainingFacts.

(** C5.  Whatever the draws, [generate_synthetic_data] returns as many rows
    as asked, and in each row the distance is at most the category's maximum
    (30, 50, 40, 10, 20 for codes 0 to 4), the fare at least the category's
    base fare (50, 100, 30, 20, 35) and the ETA at least 5. *)
Theorem generate_synthetic_data_samples_in_bounds :
  forall (C : Collaborators) (num_samples : nat) (g : rng),
    List.length (fst (generate_synthetic_data num_samples g)) = num_samples
    /\ Forall
         (fun s : TripSample =>
            (ts_ride_category s = 0%Z -> ts_distance_km s <= 30 /\ 50 <= ts_fare_bdt s)
            /\ (ts_ride_category s = 1%Z -> ts_distance_km s <= 50 /\ 100 <= ts_fare_bdt s)
            /\ (ts_ride_category s = 2%Z -> ts_distance_km s <= 40 /\ 30 <= ts_fare_bdt s)
            /\ (ts_ride_category s = 3%Z -> ts_distance_km s <= 10 /\ 20 <= ts_fare_bdt s)
            /\ (ts_ride_category s = 4%Z -> ts_distance_km s <= 20 /\ 35 <= ts_fare_bdt s)
            /\ 5 <= ts_eta_minutes s)
         (fst (generate_synthetic_data num_samples g)).
Proof.
  intros C num_samples g. exact (generate_synthetic_data_in_bounds num_samples g).
Qed.

Lemma generate_synthetic_data_samples_in_bounds_witness :
  List.length (fst (@generate_synthetic_data Toy.collaborators 5 0%nat)) = 5%nat
  /\ Forall
       (fun s : TripSample =>
          (ts_ride_category s = 0%Z -> ts_distance_km s <= 30 /\ 50 <= ts_fare_bdt s)
          /\ (ts_ride_category s = 1%Z -> ts_distance_km s <= 50 /\ 100 <= ts_fare_bdt s)
          /\ (ts_ride_category s = 2%Z -> ts_distance_km s <= 40 /\ 30 <= ts_fare_bdt s)
          /\ (ts_ride_category s = 3%Z -> ts_distance_km s <= 10 /\ 20 <= ts_fare_bdt s)
          /\ (ts_ride_category s = 4%Z -> ts_distance_km s <= 20 /\ 35 <= ts_fare_bdt s)
          /\ 5 <= ts_eta_minutes s)
       (fst (@generate_synthetic_data Toy.collaborators 5 0%nat)).
Proof.
  exact (generate_synthetic_data_samples_in_bounds Toy.collaborators 5 0%nat).
Defined.

(** ** The prediction entry point *)

Lemma haversine_distance_non_numeric (lat1 lon1 lat2 lon2 : pyval) :
  ~ numeric lat1 \/ ~ numeric lon1 \/ ~ numeric lat2 \/ ~ numeric lon2 ->
  haversine_distance lat1 lon1 lat2 lon2 = Raised TypeError.
Proof.
  intros H. rewrite haversine_distance_spec. unfold numeric in H.
  destruct (as_float lat1) as [a1 | e1] eqn:E1; cbn [bind];
    [| rewrite (as_float_raises _ _ E1); reflexivity].
  destruct (as_float lon1) as [o1 | e2] eqn:E2; cbn [bind];
    [| rewrite (as_float_raises _ _ E2); reflexivity].
  destruct (as_float lat2) as [a2 | e3] eqn:E3; cbn [bind];
    [| rewrite (as_float_raises _ _ E3); reflexivity].
  destruct (as_float lon2) as [o2 | e4] eqn:E4; cbn [bind];
    [| rewrite (as_float_raises _ _ E4); reflexivity].
  exfalso. destruct H as [H | [H | [H | H]]]; apply H; eexists; reflexivity.
Qed.

Lemma pickup_in_gulshan_zone : geodesic_km 23.785 90.415 23.78 90.41 <= 2.0.
Proof.
  apply Rle_trans with (6371 * (2 * ((1 / 12000) / (1 - (1 / 12000)²)))).
  - apply (geodesic_km_near _ _ _ _ (5 / 1000)).
    + apply Rabs_le. lra.
    + apply Rabs_le. lra.
    + lra.
    + lra.
    + unfold Rsqr. lra.
  - unfold Rsqr. lra.
Qed.

Section PredictionFacts.
Context {C : Collaborators}.

Lemma get_trained_models_cached (st : globals) (f e : model) :
  _fare_model st = Some f -> _eta_model st = Some e ->
  get_trained_models st = ((f, e), st).
Proof. intros Hf He. unfold get_trained_models. rewrite Hf, He. reflexivity. Qed.

Lemma get_trained_models_absent (st : globals) :
  _fare_model st = None \/ _eta_model st = None ->
  get_trained_models st
  = (fst (train_models (random_state st)),
     {| _fare_model := Some (fst (fst (train_models (random_state st))));
        _eta_model := Some (snd (fst (train_models (random_state st))));
        random_state := snd (train_models (random_state st)) |}).
Proof.
  intros H. unfold get_trained_models.
  destruct (train_models (random_state st)) as [[f e] g]. cbn [fst snd].
  destruct H as [H | H]; rewrite H; [| destruct (_fare_model st)]; reflexivity.
Qed.

Lemma predict_ride_details_advanced_unfold
  (pickup_coords destination_coords : pyval)
  (time_of_day_hour day_of_week is_rainy ride_category : Z)
  (pickup_location_name : string) (st : globals) :
  predict_ride_details_advanced pickup_coords destination_coords
    time_of_day_hour day_of_week is_rainy ride_category pickup_location_name st
  = (predict_with (fst (fst (get_trained_models st))) (snd (fst (get_trained_models st)))
       pickup_coords destination_coords
       time_of_day_hour day_of_week is_rainy ride_category pickup_location_name,
     snd (get_trained_models st)).
Proof.
  unfold predict_ride_details_advanced.
  destruct (get_trained_models st) as [[f e] st1]. reflexivity.
Qed.

Lemma predict_with_unpack_failure (fare_model eta_model : model)
  (pickup_coords destination_coords : pyval)
  (time_of_day_hour day_of_week is_rainy ride_category : Z)
  (pickup_location_name : string) :
  (exists e, unpack2 pickup_coords = Raised e)
  \/ (exists e, unpack2 destination_coords = Raised e) ->
  predict_with fare_model eta_model pickup_coords destination_coords
    time_of_day_hour day_of_week is_rainy ride_category pickup_location_name
  = Returned invalid_coordinates.
Proof.
  intros H. unfold predict_with.
  destruct (unpack2 pickup_coords) as [[a b] | e1]; cbn [bind].
  - destruct H as [[e H] | [e H]]; [discriminate H |]. rewrite H. cbn [bind].
    destruct e; reflexivity.
  - destruct e1; reflexivity.
Qed.

Lemma predict_with_raises (fare_model eta_model : model)
  (pickup_coords destination_coords pickup_lat pickup_lon dest_lat dest_lon : pyval)
  (time_of_day_hour day_of_week is_rainy ride_category : Z)
  (pickup_location_name : string) (e : exn) :
  unpack2 pickup_coords = Returned (pickup_lat, pickup_lon) ->
  unpack2 destination_coords = Returned (dest_lat, dest_lon) ->
  haversine_distance pickup_lat pickup_lon dest_lat dest_lon = Raised e ->
  predict_with fare_model eta_model pickup_coords destination_coords
    time_of_day_hour day_of_week is_rainy ride_category pickup_location_name
  = Raised e.
Proof.
  intros Hp Hd Hh. unfold predict_with. rewrite Hp, Hd. cbn [bind].
  rewrite Hh. reflexivity.
Qed.

(** A call with numeric coordinate pairs returns a result dictionary; its
    fields, in terms of the distance and of the surge multiplier. *)
Lemma predict_with_numeric (fare_model eta_model : model)
  (pickup_coords destination_coords pickup_lat pickup_lon dest_lat dest_lon : pyval)
  (time_of_day_hour day_of_week is_rainy ride_category : Z)
  (pickup_location_name : string) :
  unpack2 pickup_coords = Returned (pickup_lat, pickup_lon) ->
  unpack2 destination_coords = Returned (dest_lat, dest_lon) ->
  numeric pickup_lat -> numeric pickup_lon -> numeric dest_lat -> numeric dest_lon ->
  exists (dist surge : R) (res : PredictionResult),
    haversine_distance pickup_lat pickup_lon dest_lat dest_lon = Returned dist
    /\ get_surge_multiplier pickup_lat pickup_lon = Returned surge
    /\ predict_with fare_model eta_model pickup_coords destination_coords
         time_of_day_hour day_of_week is_rainy ride_category pickup_location_name
       = Returned (ResultDict res)
    /\ pr_distance_km res
       = (format_2f (Rmin dist (dict_get max_distance_map ride_category 50)) ++ " km")%string
    /\ pr_surge_applied res = Rgtb surge 1.0
    /\ pr_prediction_confidence res
       = get_prediction_confidence
           (Rmin dist (dict_get max_distance_map ride_category 50))
           time_of_day_hour is_rainy ride_category
    /\ pr_recommended_destination res = get_recommended_destination pickup_location_name.
Proof.
  intros Hp Hd [x Hx] [y Hy] [u Hu] [v Hv].
  pose proof (haversine_distance_numeric _ _ _ _ _ _ _ _ Hx Hy Hu Hv) as Hh.
  pose proof (get_surge_multiplier_numeric _ _ _ _ Hx Hy) as Hs.
  eexists. eexists. eexists.
  split; [exact Hh |]. split; [exact Hs |].
  unfold predict_with. rewrite Hp, Hd. cbn [bind]. rewrite Hh. cbn [bind].
  rewrite Hs. cbn [bind].
  split; [reflexivity |]. cbn.
  repeat split.
Qed.

End PredictionFacts.





(** C6 (as amended).  The entry point obtains the models first, training and
    caching them when one is absent, and only then unpacks the coordinates:
    a call whose coordinates do not unpack returns the error dictionary and
    leaves the globals as [get_trained_models] leaves them, unchanged when
    both models were cached and holding freshly trained models otherwise. *)
Theorem predict_obtains_models_before_validation :
  forall (C : Collaborators) (pickup_coords destination_coords : pyval)
         (time_of_day_hour day_of_week is_rainy ride_category : Z)
         (pickup_location_name : string) (st : globals),
    (exists e, unpack2 pickup_coords = Raised e)
    \/ (exists e, unpack2 destination_coords = Raised e) ->
    predict_ride_details_advanced pickup_coords destination_coords
      time_of_day_hour day_of_week is_rainy ride_category pickup_location_name st
    = (Returned
         (ErrorDict "Invalid coordinates format. Expected (latitude, longitude)."),
       snd (get_trained_models st))
    /\ (forall f e : model,
          _fare_model st = Some f -> _eta_model st = Some e ->
          snd (get_trained_models st) = st)
    /\ (_fare_model st = None \/ _eta_model st = None ->
        snd (get_trained_models st)
        = {| _fare_model := Some (fst (fst (train_models (random_state st))));
             _eta_model := Some (snd (fst (train_models (random_state st))));
             random_state := snd (train_models (random_state st)) |}).
Proof.
  intros C pickup_coords destination_coords time_of_day_hour day_of_week
    is_rainy ride_category pickup_location_name st H.
  rewrite predict_ride_details_advanced_unfold.
  rewrite (predict_with_unpack_failure _ _ _ _ _ _ _ _ _ H).
  split; [reflexivity |]. split.
  - intros f e Hf He. rewrite (get_trained_models_cached st f e Hf He). reflexivity.
  - intros Habs. rewrite (get_trained_models_absent st Habs). reflexivity.
Qed.

Lemma predict_obtains_models_before_validation_witness :
  @predict_ride_details_advanced Toy.collaborators
    (PyTuple [PyInt 1; PyInt 2]) (PyStr "invalid") 18 4 0 4 "Gulshan 1" Toy.fresh
  = (Returned (ErrorDict "Invalid coordinates format. Expected (latitude, longitude)."),
     snd (get_trained_models Toy.fresh))
  /\ (forall f e : @model Toy.collaborators,
        _fare_model Toy.fresh = Some f -> _eta_model Toy.fresh = Some e ->
        snd (get_trained_models Toy.fresh) = Toy.fresh)
  /\ (_fare_model Toy.fresh = None \/ _eta_model Toy.fresh = None ->
      snd (get_trained_models Toy.fresh)
      = {| _fare_model := Some (fst (fst (train_models (random_state Toy.fresh))));
           _eta_model := Some (snd (fst (train_models (random_state Toy.fresh))));
           random_state := snd (train_models (random_state Toy.fresh)) |}).
Proof.
  apply (predict_obtains_models_before_validation Toy.collaborators
           (PyTuple [PyInt 1; PyInt 2]) (PyStr "invalid") 18 4 0 4 "Gulshan 1" Toy.fresh).
  right. exists ValueError. reflexivity.
Defined.

(** C6, counterexample.  In a fresh process a call with a destination that
    is no pair returns the error dictionary and leaves trained models in the
    cache, which was empty: training ran and the state changed. *)
Lemma predict_invalid_call_trains_models :
  fst (@predict_ride_details_advanced Toy.collaborators
         (PyTuple [PyInt 1; PyInt 2]) (PyStr "invalid") 18 4 0 4 "Gulshan 1" Toy.fresh)
  = Returned (ErrorDict "Invalid coordinates format. Expected (latitude, longitude).")
  /\ _fare_model Toy.fresh = None
  /\ _eta_model Toy.fresh = None
  /\ _fare_model
       (snd (@predict_ride_details_advanced Toy.collaborators
               (PyTuple [PyInt 1; PyInt 2]) (PyStr "invalid") 18 4 0 4 "Gulshan 1"
               Toy.fresh))
     = Some (fst (fst (@train_models Toy.collaborators 0%nat)))
  /\ _eta_model
       (snd (@predict_ride_details_advanced Toy.collaborators
               (PyTuple [PyInt 1; PyInt 2]) (PyStr "invalid") 18 4 0 4 "Gulshan 1"
               Toy.fresh))
     = Some (snd (fst (@train_models Toy.collaborators 0%nat))).
Proof.
  rewrite predict_ride_details_advanced_unfold. cbn [fst snd].
  rewrite (get_trained_models_absent Toy.fresh (or_introl eq_refl)). cbn [fst snd].
  repeat split.
Qed.

Lemma PyFloat_numeric (x : R) : numeric (PyFloat x).
Proof. exists x. reflexivity. Qed.

Lemma gulshan_pickup_surge :
  get_surge_multiplier (PyFloat 23.785) (PyFloat 90.415) = Returned 1.5.
Proof.
  rewrite (get_surge_multiplier_numeric (PyFloat 23.785) (PyFloat 90.415)
             23.785 90.415 eq_refl eq_refl).
  destruct (Rle_dec (geodesic_km 23.785 90.415 23.78 90.41) 2.0) as [_ | N];
    [reflexivity | exfalso; apply N; exact pickup_in_gulshan_zone].
Qed.

(** C4.  The first example call of the script: pickup (23.785, 90.415),
    destination (23.8200, 90.4220), hour 18, day 4, no rain, category 4,
    pickup name "Gulshan 1".  The call returns a result with surge applied
    (the pickup is in the 1.5 zone), confidence Low (of the four penalties
    exactly rush hour and the category fire) and recommended destination
    "Bashundhara R/A". *)
Theorem predict_example_gulshan :
  forall (C : Collaborators) (st : globals),
    exists (dist : R) (res : PredictionResult),
      fst (predict_ride_details_advanced
             (PyTuple [PyFloat 23.785; PyFloat 90.415])
             (PyTuple [PyFloat 23.8200; PyFloat 90.4220])
             18 4 0 4 "Gulshan 1" st)
      = Returned (ResultDict res)
      /\ pr_surge_applied res = true
      /\ pr_prediction_confidence res = "Low"%string
      /\ pr_recommended_destination res = Some "Bashundhara R/A"%string
      /\ get_surge_multiplier (PyFloat 23.785) (PyFloat 90.415) = Returned 1.5
      /\ haversine_distance (PyFloat 23.785) (PyFloat 90.415)
           (PyFloat 23.8200) (PyFloat 90.4220) = Returned dist
      /\ penalty_conditions (Rmin dist (dict_get max_distance_map 4 50)) 18 0 4
         = [false; true; false; true].
Proof.
  intros C st. rewrite predict_ride_details_advanced_unfold. cbn [fst].
  destruct (predict_with_numeric
              (fst (fst (get_trained_models st))) (snd (fst (get_trained_models st)))
              (PyTuple [PyFloat 23.785; PyFloat 90.415])
              (PyTuple [PyFloat 23.8200; PyFloat 90.4220])
              (PyFloat 23.785) (PyFloat 90.415) (PyFloat 23.8200) (PyFloat 90.4220)
              18 4 0 4 "Gulshan 1" eq_refl eq_refl
              (PyFloat_numeric _) (PyFloat_numeric _)
              (PyFloat_numeric _) (PyFloat_numeric _))
    as [dist [surge [res [Hh [Hs [Hres [Hd [Hsa [Hc Hr]]]]]]]]].
  rewrite gulshan_pickup_surge in Hs. injection Hs as <-.
  assert (Hpen : penalty_conditions (Rmin dist (dict_get max_distance_map 4 50)) 18 0 4
                 = [false; true; false; true]).
  { unfold penalty_conditions. rewrite Rgtb_false; [reflexivity |].
    apply Rle_trans with (dict_get max_distance_map 4 50); [apply Rmin_r | cbn; lra]. }
  exists dist, res. split; [exact Hres |].
  split; [rewrite Hsa; apply Rgtb_true; lra |].
  split; [rewrite Hc, get_prediction_confidence_fold, Hpen; reflexivity |].
  split; [rewrite Hr; reflexivity |].
  split; [exact gulshan_pickup_surge |].
  split; [exact Hh | exact Hpen].
Qed.

Lemma dict_get_unknown_category (ride_category : Z) :
  ~ (0 <= ride_category <= 4)%Z -> dict_get max_distance_map ride_category 50 = 50.
Proof.
  intros H. unfold max_distance_map. cbn [dict_get].
  repeat match goal with
         | |- context [(?k =? ride_category)%Z] =>
             destruct (Z.eqb_spec k ride_category) as [E | _]; [exfalso; lia |]
         end.
  reflexivity.
Qed.

Lemma predict_returns_result (C : Collaborators)
  (pickup_coords destination_coords pickup_lat pickup_lon dest_lat dest_lon : pyval)
  (time_of_day_hour day_of_week is_rainy ride_category : Z)
  (pickup_location_name : string) (st : globals) :
  unpack2 pickup_coords = Returned (pickup_lat, pickup_lon) ->
  unpack2 destination_coords = Returned (dest_lat, dest_lon) ->
  numeric pickup_lat -> numeric pickup_lon -> numeric dest_lat -> numeric dest_lon ->
  exists res : PredictionResult,
    fst (predict_ride_details_advanced pickup_coords destination_coords
           time_of_day_hour day_of_week is_rainy ride_category
           pickup_location_name st)
    = Returned (ResultDict res).
Proof.
  intros Hp Hd N1 N2 N3 N4.
  rewrite predict_ride_details_advanced_unfold. cbn [fst].
  destruct (predict_with_numeric
              (fst (fst (get_trained_models st))) (snd (fst (get_trained_models st)))
              pickup_coords destination_coords pickup_lat pickup_lon dest_lat dest_lon
              time_of_day_hour day_of_week is_rainy ride_category pickup_location_name
              Hp Hd N1 N2 N3 N4)
    as [dist [surge [res [_ [_ [Hres _]]]]]].
  exists res. exact Hres.
Qed.




(** C10.  In every result dictionary the impacts [demand_level] and
    [location_situation] are equal, are 5 plus 10 under rain plus 15 under
    surge, hence one of 5, 15, 20, 30 and below the cap of 40; the impact
    [distance] is 38. *)
Theorem predict_feature_impacts_demand_location :
  forall (C : Collaborators) (pickup_coords destination_coords : pyval)
         (time_of_day_hour day_of_week is_rainy ride_category : Z)
         (pickup_location_name : string) (st : globals) (res : PredictionResult),
    fst (predict_ride_details_advanced pickup_coords destination_coords
           time_of_day_hour day_of_week is_rainy ride_category
           pickup_location_name st)
    = Returned (ResultDict res) ->
    fi_demand_level (pr_feature_impacts res)
    = fi_location_situation (pr_feature_impacts res)
    /\ fi_demand_level (pr_feature_impacts res)
       = (5 + (if truthy is_rainy then 10 else 0)
          + (if pr_surge_applied res then 15 else 0))%Z
    /\ In (fi_demand_level (pr_feature_impacts res)) [5%Z; 15%Z; 20%Z; 30%Z]
    /\ (fi_demand_level (pr_feature_impacts res) < 40)%Z
    /\ fi_distance (pr_feature_impacts res) = 38%Z.
Proof.
  intros C pickup_coords destination_coords time_of_day_hour day_of_week
    is_rainy ride_category pickup_location_name st res.
  rewrite predict_ride_details_advanced_unfold. cbn [fst].
  unfold predict_with.
  destruct (unpack2 pickup_coords) as [[pickup_lat pickup_lon] | e1]; cbn [bind];
    [| destruct e1; discriminate].
  destruct (unpack2 destination_coords) as [[dest_lat dest_lon] | e2]; cbn [bind];
    [| destruct e2; discriminate].
  destruct (haversine_distance pickup_lat pickup_lon dest_lat dest_lon) as [dist | e3];
    cbn [bind]; [| discriminate].
  destruct (get_surge_multiplier pickup_lat pickup_lon) as [surge | e4];
    cbn [bind]; [| discriminate].
  intros H. injection H as <-.
  cbn [pr_feature_impacts pr_surge_applied fi_demand_level fi_location_situation
       fi_distance].
  destruct (truthy is_rainy), (Rgtb surge 1.0); cbn; intuition lia.
Qed.

Lemma predict_feature_impacts_demand_location_witness :
  exists res : PredictionResult,
    fst (@predict_ride_details_advanced Toy.collaborators
           (PyTuple [PyFloat 23.785; PyFloat 90.415])
           (PyTuple [PyFloat 23.8200; PyFloat 90.4220])
           18 4 0 4 "Gulshan 1" Toy.fresh)
    = Returned (ResultDict res)
    /\ fi_demand_level (pr_feature_impacts res)
       = fi_location_situation (pr_feature_impacts res)
    /\ fi_demand_level (pr_feature_impacts res)
       = (5 + (if truthy 0 then 10 else 0) + (if pr_surge_applied res then 15 else 0))%Z
    /\ In (fi_demand_level (pr_feature_impacts res)) [5%Z; 15%Z; 20%Z; 30%Z]
    /\ (fi_demand_level (pr_feature_impacts res) < 40)%Z
    /\ fi_distance (pr_feature_impacts res) = 38%Z.
Proof.
  destruct (predict_returns_result Toy.collaborators
              (PyTuple [PyFloat 23.785; PyFloat 90.415])
              (PyTuple [PyFloat 23.8200; PyFloat 90.4220])
              (PyFloat 23.785) (PyFloat 90.415) (PyFloat 23.8200) (PyFloat 90.4220)
              18 4 0 4 "Gulshan 1" Toy.fresh eq_refl eq_refl
              (PyFloat_numeric _) (PyFloat_numeric _)
              (PyFloat_numeric _) (PyFloat_numeric _)) as [res Hres].
  exists res. split; [exact Hres |].
  exact (predict_feature_impacts_demand_location Toy.collaborators _ _ _ _ _ _ _ _ _ Hres).
Defined.

(** ** Further properties *)

Lemma mirpur_pickup_no_surge :
  get_surge_multiplier (PyFloat 23.8070) (PyFloat 90.3680) = Returned 1.0.
Proof.
  rewrite (get_surge_multiplier_numeric (PyFloat 23.8070) (PyFloat 90.3680)
             23.8070 90.3680 eq_refl eq_refl).
  assert (F1 : 2 < geodesic_km 23.8070 90.3680 23.78 90.41).
  { apply geodesic_km_far_2; try lra. rewrite Rabs_left; lra. }
  assert (F2 : 2 < geodesic_km 23.8070 90.3680 23.75 90.38).
  { apply geodesic_km_far_2; try lra. rewrite Rabs_left; lra. }
  assert (F3 : 2 < geodesic_km 23.8070 90.3680 23.72 90.40).
  { apply geodesic_km_far_2; try lra. rewrite Rabs_left; lra. }
  destruct (Rle_dec (geodesic_km 23.8070 90.3680 23.78 90.41) 2.0); [lra |].
  destruct (Rle_dec (geodesic_km 23.8070 90.3680 23.75 90.38) 2.0); [lra |].
  destruct (Rle_dec (geodesic_km 23.8070 90.3680 23.72 90.40) 2.0); [lra | reflexivity].
Qed.

Lemma mirpur_uttara_distance : geodesic_km 23.8070 90.3680 23.8759 90.3978 <= 30.
Proof.
  apply Rle_trans with (6371 * (2 * ((1 / 800) / (1 - (1 / 800)²)))).
  - apply (geodesic_km_near _ _ _ _ (7 / 100)).
    + apply Rabs_le. lra.
    + apply Rabs_le. lra.
    + lra.
    + lra.
    + unfold Rsqr. lra.
  - unfold Rsqr. lra.
Qed.

(** X1.  The second example call of the script: pickup (23.8070, 90.3680),
    destination (23.8759, 90.3978), hour 10, day 0, no rain, category 2,
    pickup name "Mirpur 10".  The call returns a result without surge, with
    confidence High and recommended destination "Uttara". *)
Theorem predict_example_mirpur :
  forall (C : Collaborators) (st : globals),
    exists res : PredictionResult,
      fst (predict_ride_details_advanced
             (PyTuple [PyFloat 23.8070; PyFloat 90.3680])
             (PyTuple [PyFloat 23.8759; PyFloat 90.3978])
             10 0 0 2 "Mirpur 10" st)
      = Returned (ResultDict res)
      /\ pr_surge_applied res = false
      /\ pr_prediction_confidence res = "High"%string
      /\ pr_recommended_destination res = Some "Uttara"%string.
Proof.
  intros C st. rewrite predict_ride_details_advanced_unfold. cbn [fst].
  destruct (predict_with_numeric
              (fst (fst (get_trained_models st))) (snd (fst (get_trained_models st)))
              (PyTuple [PyFloat 23.8070; PyFloat 90.3680])
              (PyTuple [PyFloat 23.8759; PyFloat 90.3978])
              (PyFloat 23.8070) (PyFloat 90.3680) (PyFloat 23.8759) (PyFloat 90.3978)
              10 0 0 2 "Mirpur 10" eq_refl eq_refl
              (PyFloat_numeric _) (PyFloat_numeric _)
              (PyFloat_numeric _) (PyFloat_numeric _))
    as [dist [surge [res [Hh [Hs [Hres [Hd [Hsa [Hc Hr]]]]]]]]].
  rewrite mirpur_pickup_no_surge in Hs. injection Hs as <-.
  rewrite (haversine_distance_numeric
             (PyFloat 23.8070) (PyFloat 90.3680) (PyFloat 23.8759) (PyFloat 90.3978)
             23.8070 90.3680 23.8759 90.3978 eq_refl eq_refl eq_refl eq_refl) in Hh.
  injection Hh as <-.
  exists res. split; [exact Hres |].
  split; [rewrite Hsa; apply Rgtb_false; lra |].
  split; [| rewrite Hr; reflexivity].
  rewrite Hc, get_prediction_confidence_fold. unfold penalty_conditions.
  rewrite Rgtb_false; [reflexivity |].
  apply Rle_trans with (1 := Rmin_l _ _). exact mirpur_uttara_distance.
Qed.

(** X2.  The models are trained at most once: after a first call of
    [get_trained_models] a second call returns the same pair and leaves the
    globals as they are. *)
Theorem get_trained_models_trains_once :
  forall (C : Collaborators) (st : globals),
    get_trained_models (snd (get_trained_models st))
    = (fst (get_trained_models st), snd (get_trained_models st)).
Proof.
  intros C st.
  destruct (_fare_model st) as [f |] eqn:Hf; [destruct (_eta_model st) as [e |] eqn:He |].
  - rewrite (get_trained_models_cached st f e Hf He). cbn [fst snd].
    apply get_trained_models_cached; assumption.
  - rewrite (get_trained_models_absent st (or_intror He)).
    destruct (train_models (random_state st)) as [[f' e'] g]. cbn [fst snd].
    apply get_trained_models_cached; reflexivity.
  - rewrite (get_trained_models_absent st (or_introl Hf)).
    destruct (train_models (random_state st)) as [[f' e'] g]. cbn [fst snd].
    apply get_trained_models_cached; reflexivity.
Qed.

(** ** Concrete runs *)

Example recommend_gulshan :
  get_recommended_destination "Gulshan 1" = Some "Bashundhara R/A"%string.
Proof. reflexivity. Qed.

Example recommend_mirpur :
  get_recommended_destination "Mirpur 10" = Some "Uttara"%string.
Proof. reflexivity. Qed.

Example recommend_downtown : get_recommended_destination "downtown" = None.
Proof. reflexivity. Qed.

Example confidence_all_penalties : get_prediction_confidence 45 18 1 3 = "Low"%string.
Proof.
  rewrite get_prediction_confidence_fold. unfold penalty_conditions.
  rewrite (Rgtb_true 45 30) by lra. reflexivity.
Qed.

Example unpack_string_invalid : unpack2 (PyStr "invalid") = Raised ValueError.
Proof. reflexivity. Qed.

Example unpack_none : unpack2 PyNone = Raised TypeError.
Proof. reflexivity. Qed.

(** ** Further properties: destination recommendation *)

Lemma prefix_iff_append (needle hay : string) :
  String.prefix needle hay = true <-> exists post : string, hay = (needle ++ post)%string.
Proof.
  revert hay. induction needle as [| c needle IH]; intros hay.
  - split; [intros _; exists hay; reflexivity | intros _; destruct hay; reflexivity].
  - destruct hay as [| h hay]; cbn.
    + split; [discriminate | intros [post H]; discriminate H].
    + destruct (ascii_dec c h) as [-> | N].
      * rewrite IH. split; intros [post H]; exists post.
        -- rewrite H. reflexivity.
        -- injection H as H. exact H.
      * split; [discriminate | intros [post H]; injection H as E _; congruence].
Qed.

Lemma str_in_occurs (needle hay : string) :
  str_in needle hay = true <-> occurs_in needle hay.
Proof.
  unfold occurs_in. induction hay as [| h hay IH].
  - cbn [str_in]. destruct (String.prefix needle "") eqn:P.
    + split; [intros _ | reflexivity].
      apply prefix_iff_append in P. destruct P as [post P].
      exists EmptyString, post. exact P.
    + split; [discriminate |]. intros [pre [post H]].
      destruct pre as [| p pre]; [| discriminate H]. cbn in H.
      assert (String.prefix needle "" = true) by (apply prefix_iff_append; exists post; exact H).
      congruence.
  - cbn [str_in]. destruct (String.prefix needle (String h hay)) eqn:P.
    + split; [intros _ | reflexivity].
      apply prefix_iff_append in P. destruct P as [post P].
      exists EmptyString, post. exact P.
    + rewrite IH. split.
      * intros [pre [post H]]. exists (String h pre), post. rewrite H. reflexivity.
      * intros [pre [post H]]. destruct pre as [| p pre].
        -- cbn in H.
           assert (String.prefix needle (String h hay) = true)
             by (apply prefix_iff_append; exists post; exact H).
           congruence.
        -- injection H as _ H. exists pre, post. exact H.
Qed.

Lemma lower_ascii_idempotent (c : ascii) : lower_ascii (lower_ascii c) = lower_ascii c.
Proof.
  destruct c as [[] [] [] [] [] [] [] []]; reflexivity.
Qed.

Lemma lower_idempotent (s : string) : lower (lower s) = lower s.
Proof.
  induction s as [| c s IH]; [reflexivity |].
  cbn [lower]. rewrite lower_ascii_idempotent, IH. reflexivity.
Qed.

(** X3.  The recommendation is decided on the lower-cased name by the first
    keyword that occurs in it: "gulshan" gives "Bashundhara R/A" whatever
    else the name holds; failing that "dhanmondi" gives "Motijheel"; failing
    that "mirpur" gives "Uttara"; a name with none of the three gives no
    recommendation. *)
Theorem get_recommended_destination_first_keyword :
  forall pickup_location_name : string,
    (get_recommended_destination pickup_location_name = Some "Bashundhara R/A"%string
     <-> occurs_in "gulshan" (lower pickup_location_name))
    /\ (get_recommended_destination pickup_location_name = Some "Motijheel"%string
        <-> ~ occurs_in "gulshan" (lower pickup_location_name)
            /\ occurs_in "dhanmondi" (lower pickup_location_name))
    /\ (get_recommended_destination pickup_location_name = Some "Uttara"%string
        <-> ~ occurs_in "gulshan" (lower pickup_location_name)
            /\ ~ occurs_in "dhanmondi" (lower pickup_location_name)
            /\ occurs_in "mirpur" (lower pickup_location_name))
    /\ (get_recommended_destination pickup_location_name = None
        <-> ~ occurs_in "gulshan" (lower pickup_location_name)
            /\ ~ occurs_in "dhanmondi" (lower pickup_location_name)
            /\ ~ occurs_in "mirpur" (lower pickup_location_name)).
Proof.
  intros name. unfold get_recommended_destination.
  rewrite <- !str_in_occurs.
  destruct (str_in "gulshan" (lower name));
    destruct (str_in "dhanmondi" (lower name));
    destruct (str_in "mirpur" (lower name));
    repeat split; intros; try discriminate; try reflexivity;
    repeat match goal with H : _ /\ _ |- _ => destruct H end;
    try congruence; try (intro; discriminate).
Qed.

(** X4.  The recommendation does not depend on letter case: a name and its
    lower-cased form get the same recommendation, and so do any two names
    with the same lower-cased form. *)
Theorem get_recommended_destination_case_insensitive :
  forall name other : string,
    get_recommended_destination (lower name) = get_recommended_destination name
    /\ (lower name = lower other ->
        get_recommended_destination name = get_recommended_destination other).
Proof.
  intros name other. unfold get_recommended_destination. split.
  - rewrite lower_idempotent. reflexivity.
  - intros ->. reflexivity.
Qed.

Lemma get_recommended_destination_case_insensitive_witness :
  get_recommended_destination (lower "GULSHAN Circle 2")
  = get_recommended_destination "GULSHAN Circle 2"
  /\ (lower "GULSHAN Circle 2" = lower "gulshan circle 2" ->
      get_recommended_destination "GULSHAN Circle 2"
      = get_recommended_destination "gulshan circle 2").
Proof.
  exact (get_recommended_destination_case_insensitive
           "GULSHAN Circle 2" "gulshan circle 2").
Defined.

(** ** Further properties: the prediction entry point *)

(** The fields of a returned result in terms of the call's arguments. *)
Lemma predict_result_fields (C : Collaborators)
  (pickup_coords destination_coords : pyval)
  (time_of_day_hour day_of_week is_rainy ride_category : Z)
  (pickup_location_name : string) (st : globals) (res : PredictionResult) :
  fst (predict_ride_details_advanced pickup_coords destination_coords
         time_of_day_hour day_of_week is_rainy ride_category
         pickup_location_name st)
  = Returned (ResultDict res) ->
  exists (pickup_lat pickup_lon dest_lat dest_lon : pyval) (dist surge : R),
    unpack2 pickup_coords = Returned (pickup_lat, pickup_lon)
    /\ unpack2 destination_coords = Returned (dest_lat, dest_lon)
    /\ haversine_distance pickup_lat pickup_lon dest_lat dest_lon = Returned dist
    /\ get_surge_multiplier pickup_lat pickup_lon = Returned surge
    /\ pr_surge_applied res = Rgtb surge 1.0
    /\ pr_prediction_confidence res
       = get_prediction_confidence
           (Rmin dist (dict_get max_distance_map ride_category 50))
           time_of_day_hour is_rainy ride_category
    /\ fi_time_of_day (pr_feature_impacts res)
       = (if rush_hour time_of_day_hour then 25
          else if (10 <=? time_of_day_hour) && (time_of_day_hour <=? 11)
                  || (12 <=? time_of_day_hour) && (time_of_day_hour <=? 16)
                  || (20 <=? time_of_day_hour) && (time_of_day_hour <=? 21)
               then 15 else 5)%Z
    /\ fi_distance (pr_feature_impacts res) = 38%Z
    /\ fi_demand_level (pr_feature_impacts res)
       = Z.min ((if pr_surge_applied res
                 then (if truthy is_rainy then 5 + 10 else 5) + 15
                 else (if truthy is_rainy then 5 + 10 else 5)))%Z 40
    /\ fi_location_situation (pr_feature_impacts res)
       = fi_demand_level (pr_feature_impacts res).
Proof.
  rewrite predict_ride_details_advanced_unfold. cbn [fst]. unfold predict_with.
  destruct (unpack2 pickup_coords) as [[pickup_lat pickup_lon] | e1] eqn:Hp;
    cbn [bind]; [| destruct e1; discriminate].
  destruct (unpack2 destination_coords) as [[dest_lat dest_lon] | e2] eqn:Hd;
    cbn [bind]; [| destruct e2; discriminate].
  destruct (haversine_distance pickup_lat pickup_lon dest_lat dest_lon)
    as [dist | e3] eqn:Hh; cbn [bind]; [| discriminate].
  destruct (get_surge_multiplier pickup_lat pickup_lon) as [surge | e4] eqn:Hs;
    cbn [bind]; [| discriminate].
  intros H. injection H as <-.
  exists pickup_lat, pickup_lon, dest_lat, dest_lon, dist, surge.
  cbn [pr_feature_impacts pr_surge_applied pr_prediction_confidence
       fi_demand_level fi_location_situation fi_distance fi_time_of_day].
  do 8 (split; [first [assumption | reflexivity] |]).
  split; destruct (Rgtb surge 1.0), (truthy is_rainy); reflexivity.
Qed.

(** X5.  The impact [time_of_day] of a result is 25 for the hours 7..9 and
    17..19, 15 for the hours 10..16 and 20..21, and 5 for every other hour,
    hours outside 0..23 included. *)
Theorem predict_time_of_day_impact :
  forall (C : Collaborators) (pickup_coords destination_coords : pyval)
         (time_of_day_hour day_of_week is_rainy ride_category : Z)
         (pickup_location_name : string) (st : globals) (res : PredictionResult),
    fst (predict_ride_details_advanced pickup_coords destination_coords
           time_of_day_hour day_of_week is_rainy ride_category
           pickup_location_name st)
    = Returned (ResultDict res) ->
    (fi_time_of_day (pr_feature_impacts res) = 25%Z
     <-> (7 <= time_of_day_hour <= 9 \/ 17 <= time_of_day_hour <= 19)%Z)
    /\ (fi_time_of_day (pr_feature_impacts res) = 15%Z
        <-> (10 <= time_of_day_hour <= 16 \/ 20 <= time_of_day_hour <= 21)%Z)
    /\ (fi_time_of_day (pr_feature_impacts res) = 5%Z
        <-> (time_of_day_hour <= 6 \/ 22 <= time_of_day_hour)%Z).
Proof.
  intros C pickup_coords destination_coords time_of_day_hour day_of_week
    is_rainy ride_category pickup_location_name st res H.
  destruct (predict_result_fields C _ _ _ _ _ _ _ _ _ H)
    as [a [b [c [d [dist [surge [_ [_ [_ [_ [_ [_ [Ht _]]]]]]]]]]]]].
  rewrite Ht. unfold rush_hour.
  destruct (7 <=? time_of_day_hour)%Z eqn:E1; destruct (time_of_day_hour <=? 9)%Z eqn:E2;
    destruct (17 <=? time_of_day_hour)%Z eqn:E3; destruct (time_of_day_hour <=? 19)%Z eqn:E4;
    destruct (10 <=? time_of_day_hour)%Z eqn:E5; destruct (time_of_day_hour <=? 11)%Z eqn:E6;
    destruct (12 <=? time_of_day_hour)%Z eqn:E7; destruct (time_of_day_hour <=? 16)%Z eqn:E8;
    destruct (20 <=? time_of_day_hour)%Z eqn:E9; destruct (time_of_day_hour <=? 21)%Z eqn:E10;
    rewrite ?Z.leb_le, ?Z.leb_gt in *; cbn; lia.
Qed.

Lemma predict_time_of_day_impact_witness :
  exists res : PredictionResult,
    fst (@predict_ride_details_advanced Toy.collaborators
           (PyTuple [PyFloat 23.785; PyFloat 90.415])
           (PyTuple [PyFloat 23.8200; PyFloat 90.4220])
           18 4 0 4 "Gulshan 1" Toy.fresh)
    = Returned (ResultDict res)
    /\ (fi_time_of_day (pr_feature_impacts res) = 25%Z
        <-> (7 <= 18 <= 9 \/ 17 <= 18 <= 19)%Z)
    /\ (fi_time_of_day (pr_feature_impacts res) = 15%Z
        <-> (10 <= 18 <= 16 \/ 20 <= 18 <= 21)%Z)
    /\ (fi_time_of_day (pr_feature_impacts res) = 5%Z
        <-> (18 <= 6 \/ 22 <= 18)%Z).
Proof.
  destruct (predict_returns_result Toy.collaborators
              (PyTuple [PyFloat 23.785; PyFloat 90.415])
              (PyTuple [PyFloat 23.8200; PyFloat 90.4220])
              (PyFloat 23.785) (PyFloat 90.415) (PyFloat 23.8200) (PyFloat 90.4220)
              18 4 0 4 "Gulshan 1" Toy.fresh eq_refl eq_refl
              (PyFloat_numeric _) (PyFloat_numeric _)
              (PyFloat_numeric _) (PyFloat_numeric _)) as [res Hres].
  exists res. split; [exact Hres |].
  exact (predict_time_of_day_impact Toy.collaborators _ _ _ _ _ _ _ _ _ Hres).
Defined.

(** X6.  The four feature impacts of a result add up to one of 53, 63, 73,
    83, 93, 103, 113, 123: they never add up to 100. *)
Theorem predict_feature_impacts_total :
  forall (C : Collaborators) (pickup_coords destination_coords : pyval)
         (time_of_day_hour day_of_week is_rainy ride_category : Z)
         (pickup_location_name : string) (st : globals) (res : PredictionResult),
    fst (predict_ride_details_advanced pickup_coords destination_coords
           time_of_day_hour day_of_week is_rainy ride_category
           pickup_location_name st)
    = Returned (ResultDict res) ->
    In (fi_distance (pr_feature_impacts res)
        + fi_time_of_day (pr_feature_impacts res)
        + fi_demand_level (pr_feature_impacts res)
        + fi_location_situation (pr_feature_impacts res))%Z
       [53; 63; 73; 83; 93; 103; 113; 123]%Z
    /\ (fi_distance (pr_feature_impacts res)
        + fi_time_of_day (pr_feature_impacts res)
        + fi_demand_level (pr_feature_impacts res)
        + fi_location_situation (pr_feature_impacts res) <> 100)%Z.
Proof.
  intros C pickup_coords destination_coords time_of_day_hour day_of_week
    is_rainy ride_category pickup_location_name st res H.
  destruct (predict_result_fields C _ _ _ _ _ _ _ _ _ H)
    as [a [b [c [d [dist [surge [_ [_ [_ [_ [_ [_ [Ht [Hdi [Hde Hl]]]]]]]]]]]]]]].
  rewrite Hl, Hde, Hdi, Ht.
  destruct (rush_hour time_of_day_hour);
    [| destruct ((10 <=? time_of_day_hour) && (time_of_day_hour <=? 11)
                 || (12 <=? time_of_day_hour) && (time_of_day_hour <=? 16)
                 || (20 <=? time_of_day_hour) && (time_of_day_hour <=? 21))%Z];
    destruct (pr_surge_applied res), (truthy is_rainy); cbn;
    (split; [tauto | discriminate]).
Qed.

Lemma predict_feature_impacts_total_witness :
  exists res : PredictionResult,
    fst (@predict_ride_details_advanced Toy.collaborators
           (PyTuple [PyFloat 23.785; PyFloat 90.415])
           (PyTuple [PyFloat 23.8200; PyFloat 90.4220])
           18 4 0 4 "Gulshan 1" Toy.fresh)
    = Returned (ResultDict res)
    /\ In (fi_distance (pr_feature_impacts res)
           + fi_time_of_day (pr_feature_impacts res)
           + fi_demand_level (pr_feature_impacts res)
           + fi_location_situation (pr_feature_impacts res))%Z
          [53; 63; 73; 83; 93; 103; 113; 123]%Z
    /\ (fi_distance (pr_feature_impacts res)
        + fi_time_of_day (pr_feature_impacts res)
        + fi_demand_level (pr_feature_impacts res)
        + fi_location_situation (pr_feature_impacts res) <> 100)%Z.
Proof.
  destruct (predict_returns_result Toy.collaborators
              (PyTuple [PyFloat 23.785; PyFloat 90.415])
              (PyTuple [PyFloat 23.8200; PyFloat 90.4220])
              (PyFloat 23.785) (PyFloat 90.415) (PyFloat 23.8200) (PyFloat 90.4220)
              18 4 0 4 "Gulshan 1" Toy.fresh eq_refl eq_refl
              (PyFloat_numeric _) (PyFloat_numeric _)
              (PyFloat_numeric _) (PyFloat_numeric _)) as [res Hres].
  exists res. split; [exact Hres |].
  exact (predict_feature_impacts_total Toy.collaborators _ _ _ _ _ _ _ _ _ Hres).
Defined.

(** X7.  For the categories whose maximum distance is at most 30 (codes 0, 3
    and 4) the distance is clamped before the confidence is computed, so the
    distance penalty never fires: the confidence of a result is the one of a
    zero-length trip, and for codes 3 and 4 it is never High. *)
Theorem predict_confidence_ignores_clamped_distance :
  forall (C : Collaborators) (pickup_coords destination_coords : pyval)
         (time_of_day_hour day_of_week is_rainy ride_category : Z)
         (pickup_location_name : string) (st : globals) (res : PredictionResult),
    fst (predict_ride_details_advanced pickup_coords destination_coords
           time_of_day_hour day_of_week is_rainy ride_category
           pickup_location_name st)
    = Returned (ResultDict res) ->
    (ride_category = 0 \/ ride_category = 3 \/ ride_category = 4)%Z ->
    pr_prediction_confidence res
    = get_prediction_confidence 0 time_of_day_hour is_rainy ride_category
    /\ ((ride_category = 3 \/ ride_category = 4)%Z ->
        In (pr_prediction_confidence res) ["Low"%string; "Medium"%string]).
Proof.
  intros C pickup_coords destination_coords time_of_day_hour day_of_week
    is_rainy ride_category pickup_location_name st res H Hcat.
  destruct (predict_result_fields C _ _ _ _ _ _ _ _ _ H)
    as [a [b [c [d [dist [surge [_ [_ [_ [_ [_ [Hc _]]]]]]]]]]]].
  rewrite Hc, !get_prediction_confidence_fold. unfold penalty_conditions.
  assert (Hcap : dict_get max_distance_map ride_category 50 <= 30).
  { destruct Hcat as [-> | [-> | ->]]; cbn; lra. }
  rewrite (Rgtb_false (Rmin dist (dict_get max_distance_map ride_category 50)) 30)
    by (apply Rle_trans with (2 := Hcap); apply Rmin_r).
  rewrite (Rgtb_false 0 30) by lra.
  split; [reflexivity |].
  intros Hr. cbn [fold_left deduct].
  assert (Hex : existsb (Z.eqb ride_category) [3%Z; 4%Z] = true)
    by (destruct Hr as [-> | ->]; reflexivity).
  rewrite Hex.
  destruct (rush_hour time_of_day_hour), (truthy is_rainy); cbn; tauto.
Qed.

Lemma predict_confidence_ignores_clamped_distance_witness :
  exists res : PredictionResult,
    fst (@predict_ride_details_advanced Toy.collaborators
           (PyTuple [PyFloat 23.785; PyFloat 90.415])
           (PyTuple [PyFloat 23.8200; PyFloat 90.4220])
           18 4 0 4 "Gulshan 1" Toy.fresh)
    = Returned (ResultDict res)
    /\ pr_prediction_confidence res = get_prediction_confidence 0 18 0 4
    /\ ((4 = 3 \/ 4 = 4)%Z ->
        In (pr_prediction_confidence res) ["Low"%string; "Medium"%string]).
Proof.
  destruct (predict_returns_result Toy.collaborators
              (PyTuple [PyFloat 23.785; PyFloat 90.415])
              (PyTuple [PyFloat 23.8200; PyFloat 90.4220])
              (PyFloat 23.785) (PyFloat 90.415) (PyFloat 23.8200) (PyFloat 90.4220)
              18 4 0 4 "Gulshan 1" Toy.fresh eq_refl eq_refl
              (PyFloat_numeric _) (PyFloat_numeric _)
              (PyFloat_numeric _) (PyFloat_numeric _)) as [res Hres].
  exists res. split; [exact Hres |].
  apply (predict_confidence_ignores_clamped_distance
           Toy.collaborators _ _ _ _ _ _ _ _ _ Hres).
  right. right. reflexivity.
Defined.

(** X8.  Whenever [get_surge_multiplier] returns, the multiplier is one of
    1.5, 1.3, 1.8 and 1.0, so it is at least 1; and it exceeds 1.0 exactly
    when some configured zone center is within the surge radius of the
    pickup. *)
Theorem get_surge_multiplier_range :
  forall (pickup_lat pickup_lon : pyval) (m : R),
    get_surge_multiplier pickup_lat pickup_lon = Returned m ->
    In m [1.5; 1.3; 1.8; 1.0]
    /\ 1 <= m
    /\ (Rgtb m 1.0 = true
        <-> exists zone : R * R * R,
              In zone SURGE_ZONE_CENTERS
              /\ exists dist : R,
                   haversine_distance pickup_lat pickup_lon
                     (PyFloat (fst (fst zone))) (PyFloat (snd (fst zone)))
                   = Returned dist
                   /\ dist <= SURGE_RADIUS_KM).
Proof.
  intros pickup_lat pickup_lon m.
  unfold get_surge_multiplier, SURGE_ZONE_CENTERS. cbn [surge_scan].
  unfold SURGE_RADIUS_KM.
  destruct (haversine_distance pickup_lat pickup_lon (PyFloat 23.78) (PyFloat 90.41))
    as [d1 | e1] eqn:H1; cbn [bind]; [| discriminate].
  destruct (Rle_dec d1 2.0) as [L1 | N1].
  { intros H. injection H as <-. split; [cbn; tauto |]. split; [lra |].
    split; [intros _ | intros _; apply Rgtb_true; lra].
    exists (23.78, 90.41, 1.5). split; [cbn; tauto |].
    exists d1. split; [exact H1 | exact L1]. }
  destruct (haversine_distance pickup_lat pickup_lon (PyFloat 23.75) (PyFloat 90.38))
    as [d2 | e2] eqn:H2; cbn [bind]; [| discriminate].
  destruct (Rle_dec d2 2.0) as [L2 | N2].
  { intros H. injection H as <-. split; [cbn; tauto |]. split; [lra |].
    split; [intros _ | intros _; apply Rgtb_true; lra].
    exists (23.75, 90.38, 1.3). split; [cbn; tauto |].
    exists d2. split; [exact H2 | exact L2]. }
  destruct (haversine_distance pickup_lat pickup_lon (PyFloat 23.72) (PyFloat 90.40))
    as [d3 | e3] eqn:H3; cbn [bind]; [| discriminate].
  destruct (Rle_dec d3 2.0) as [L3 | N3].
  { intros H. injection H as <-. split; [cbn; tauto |]. split; [lra |].
    split; [intros _ | intros _; apply Rgtb_true; lra].
    exists (23.72, 90.40, 1.8). split; [cbn; tauto |].
    exists d3. split; [exact H3 | exact L3]. }
  intros H. injection H as <-. split; [cbn; tauto |]. split; [lra |].
  split.
  - rewrite Rgtb_false by lra. discriminate.
  - intros [zone [Hin [dist [Hd Hle]]]]. exfalso.
    cbn in Hin. destruct Hin as [<- | [<- | [<- | []]]]; cbn [fst snd] in Hd.
    + rewrite H1 in Hd. injection Hd as <-. contradiction.
    + rewrite H2 in Hd. injection Hd as <-. contradiction.
    + rewrite H3 in Hd. injection Hd as <-. contradiction.
Qed.

Lemma get_surge_multiplier_range_witness :
  In 1.5 [1.5; 1.3; 1.8; 1.0]
  /\ 1 <= 1.5
  /\ (Rgtb 1.5 1.0 = true
      <-> exists zone : R * R * R,
            In zone SURGE_ZONE_CENTERS
            /\ exists dist : R,
                 haversine_distance (PyFloat 23.785) (PyFloat 90.415)
                   (PyFloat (fst (fst zone))) (PyFloat (snd (fst zone)))
                 = Returned dist
                 /\ dist <= SURGE_RADIUS_KM).
Proof.
  exact (get_surge_multiplier_range (PyFloat 23.785) (PyFloat 90.415) 1.5
           gulshan_pickup_surge).
Defined.

Section EntryPointState.
Context {C : Collaborators}.

Lemma get_trained_models_result_cached (st : globals) :
  _fare_model (snd (get_trained_models st)) = Some (fst (fst (get_trained_models st)))
  /\ _eta_model (snd (get_trained_models st)) = Some (snd (fst (get_trained_models st))).
Proof.
  destruct (_fare_model st) as [f |] eqn:Hf; [destruct (_eta_model st) as [e |] eqn:He |].
  - rewrite (get_trained_models_cached st f e Hf He). cbn [fst snd]. split; assumption.
  - rewrite (get_trained_models_absent st (or_intror He)). cbn [fst snd _fare_model _eta_model].
    split; reflexivity.
  - rewrite (get_trained_models_absent st (or_introl Hf)). cbn [fst snd _fare_model _eta_model].
    split; reflexivity.
Qed.

Lemma get_trained_models_again (st : globals) :
  get_trained_models (snd (get_trained_models st))
  = (fst (get_trained_models st), snd (get_trained_models st)).
Proof.
  destruct (get_trained_models_result_cached st) as [Hf He].
  rewrite (get_trained_models_cached _ _ _ Hf He).
  destruct (fst (get_trained_models st)); reflexivity.
Qed.

End EntryPointState.

(** X9.  After any call of the entry point, returning or raising, both
    models are cached; a later call, with whatever arguments, leaves the
    globals unchanged and predicts with the cached pair, so repeating a call
    repeats its outcome. *)
Theorem predict_caches_models_once :
  forall (C : Collaborators) (pickup1 destination1 : pyval)
         (hour1 day1 rainy1 category1 : Z) (name1 : string)
         (pickup2 destination2 : pyval)
         (hour2 day2 rainy2 category2 : Z) (name2 : string) (st : globals),
    exists fare_model eta_model : model,
      _fare_model
        (snd (predict_ride_details_advanced pickup1 destination1
                hour1 day1 rainy1 category1 name1 st)) = Some fare_model
      /\ _eta_model
           (snd (predict_ride_details_advanced pickup1 destination1
                   hour1 day1 rainy1 category1 name1 st)) = Some eta_model
      /\ predict_ride_details_advanced pickup2 destination2
           hour2 day2 rainy2 category2 name2
           (snd (predict_ride_details_advanced pickup1 destination1
                   hour1 day1 rainy1 category1 name1 st))
         = (predict_with fare_model eta_model pickup2 destination2
              hour2 day2 rainy2 category2 name2,
            snd (predict_ride_details_advanced pickup1 destination1
                   hour1 day1 rainy1 category1 name1 st))
      /\ predict_ride_details_advanced pickup1 destination1
           hour1 day1 rainy1 category1 name1
           (snd (predict_ride_details_advanced pickup1 destination1
                   hour1 day1 rainy1 category1 name1 st))
         = (fst (predict_ride_details_advanced pickup1 destination1
                   hour1 day1 rainy1 category1 name1 st),
            snd (predict_ride_details_advanced pickup1 destination1
                   hour1 day1 rainy1 category1 name1 st)).
Proof.
  intros C pickup1 destination1 hour1 day1 rainy1 category1 name1
    pickup2 destination2 hour2 day2 rainy2 category2 name2 st.
  destruct (get_trained_models_result_cached st) as [Hf He].
  exists (fst (fst (get_trained_models st))), (snd (fst (get_trained_models st))).
  rewrite !predict_ride_details_advanced_unfold. cbn [fst snd].
  rewrite !get_trained_models_again. cbn [fst snd].
  repeat split; assumption.
Qed.

(** X10.  The example block trains twice: the pair trained at its start is
    not stored in the cache, so the first example call trains again.  Both
    example calls return a result dictionary, and the block ends with the
    models of the second training cached and the random state advanced by
    two trainings. *)
Theorem main_trains_twice :
  forall (C : Collaborators) (g : rng),
    exists ex1 ex2 : PredictionResult,
      main g
      = (Returned (ResultDict ex1, ResultDict ex2),
         {| _fare_model := Some (fst (fst (train_models (snd (train_models g)))));
            _eta_model := Some (snd (fst (train_models (snd (train_models g)))));
            random_state := snd (train_models (snd (train_models g))) |}).
Proof.
  intros C g. unfold main, module_globals. cbn [random_state _fare_model _eta_model].
  destruct (train_models g) as [[f0 e0] g1] eqn:T1. cbn [snd].
  set (st1 := {| _fare_model := None; _eta_model := None; random_state := g1 |}).
  destruct (predict_returns_result C
              (PyTuple [PyFloat 23.785; PyFloat 90.415])
              (PyTuple [PyFloat 23.8200; PyFloat 90.4220])
              (PyFloat 23.785) (PyFloat 90.415) (PyFloat 23.8200) (PyFloat 90.4220)
              18 4 0 4 "Gulshan 1" st1 eq_refl eq_refl
              (PyFloat_numeric _) (PyFloat_numeric _)
              (PyFloat_numeric _) (PyFloat_numeric _)) as [ex1 H1].
  assert (S1 : snd (predict_ride_details_advanced
                      (PyTuple [PyFloat 23.785; PyFloat 90.415])
                      (PyTuple [PyFloat 23.8200; PyFloat 90.4220])
                      18 4 0 4 "Gulshan 1" st1)
               = {| _fare_model := Some (fst (fst (train_models g1)));
                    _eta_model := Some (snd (fst (train_models g1)));
                    random_state := snd (train_models g1) |}).
  { rewrite predict_ride_details_advanced_unfold. cbn [snd].
    rewrite (get_trained_models_absent st1 (or_introl eq_refl)). reflexivity. }
  destruct (predict_ride_details_advanced
              (PyTuple [PyFloat 23.785; PyFloat 90.415])
              (PyTuple [PyFloat 23.8200; PyFloat 90.4220])
              18 4 0 4 "Gulshan 1" st1) as [r1 st2].
  cbn [fst snd] in H1, S1. subst r1 st2.
  set (st2 := {| _fare_model := Some (fst (fst (train_models g1)));
                 _eta_model := Some (snd (fst (train_models g1)));
                 random_state := snd (train_models g1) |}).
  destruct (predict_returns_result C
              (PyTuple [PyFloat 23.8070; PyFloat 90.3680])
              (PyTuple [PyFloat 23.8759; PyFloat 90.3978])
              (PyFloat 23.8070) (PyFloat 90.3680) (PyFloat 23.8759) (PyFloat 90.3978)
              10 0 0 2 "Mirpur 10" st2 eq_refl eq_refl
              (PyFloat_numeric _) (PyFloat_numeric _)
              (PyFloat_numeric _) (PyFloat_numeric _)) as [ex2 H2].
  assert (S2 : snd (predict_ride_details_advanced
                      (PyTuple [PyFloat 23.8070; PyFloat 90.3680])
                      (PyTuple [PyFloat 23.8759; PyFloat 90.3978])
                      10 0 0 2 "Mirpur 10" st2) = st2).
  { rewrite predict_ride_details_advanced_unfold. cbn [snd].
    rewrite (get_trained_models_cached st2 _ _ eq_refl eq_refl). reflexivity. }
  destruct (predict_ride_details_advanced
              (PyTuple [PyFloat 23.8070; PyFloat 90.3680])
              (PyTuple [PyFloat 23.8759; PyFloat 90.3978])
              10 0 0 2 "Mirpur 10" st2) as [r2 st3].
  cbn [fst snd] in H2, S2. subst r2 st3.
  exists ex1, ex2. reflexivity.
Qed.

(** ** Further properties: synthetic trips *)

Section GeneratorFacts.
Context {C : Collaborators}.

Lemma generate_sample_features_in_range (g : rng) :
  rng_in_range C ->
  let s := fst (generate_sample g) in
  1 <= ts_distance_km s
  /\ (0 <= ts_time_of_day_hour s <= 23)%Z
  /\ (0 <= ts_day_of_week s <= 6)%Z
  /\ (ts_is_rainy s = 0 \/ ts_is_rainy s = 1)%Z
  /\ (0 <= ts_ride_category s <= 4)%Z.
Proof.
  intros [Hu [Hr Hc]]. unfold generate_sample.
  pose proof (Hu 1 50 g ltac:(lra)) as U1.
  destruct (random_uniform 1 50 g) as [distance_km g1]. cbn [fst] in U1.
  pose proof (Hr 0%Z 23%Z g1 ltac:(lia)) as R1.
  destruct (random_randint 0 23 g1) as [time_of_day_hour g2]. cbn [fst] in R1.
  pose proof (Hr 0%Z 6%Z g2 ltac:(lia)) as R2.
  destruct (random_randint 0 6 g2) as [day_of_week g3]. cbn [fst] in R2.
  pose proof (Hc [0%Z; 1%Z] g3 ltac:(discriminate)) as C1.
  destruct (random_choice [0%Z; 1%Z] g3) as [is_rainy g4]. cbn [fst] in C1.
  pose proof (Hr 0%Z 4%Z g4 ltac:(lia)) as R3.
  destruct (random_randint 0 4 g4) as [ride_category g5]. cbn [fst] in R3.
  assert (D : forall cap : R, 1 <= cap -> 1 <= Rmin distance_km cap).
  { intros cap Hcap. apply Rmin_glb; lra. }
  destruct (ride_category =? 0)%Z;
    [| destruct (ride_category =? 1)%Z;
       [| destruct (ride_category =? 2)%Z;
          [| destruct (ride_category =? 3)%Z]]];
    destruct (random_uniform (-25) 25 g5) as [noise_fare g6];
    destruct (random_uniform (-5) 5 g6) as [noise_eta g7];
    cbn [fst ts_distance_km ts_time_of_day_hour ts_day_of_week ts_is_rainy
         ts_ride_category];
    (split; [apply D; lra |]);
    (split; [exact R1 |]); (split; [exact R2 |]);
    (split; [cbn in C1; intuition congruence | exact R3]).
Qed.

Lemma generate_sample_within_clamp (g : rng) :
  ts_distance_km (fst (generate_sample g))
  <= dict_get max_distance_map (ts_ride_category (fst (generate_sample g))) 50.
Proof.
  unfold generate_sample.
  destruct (random_uniform 1 50 g) as [distance_km g1].
  destruct (random_randint 0 23 g1) as [time_of_day_hour g2].
  destruct (random_randint 0 6 g2) as [day_of_week g3].
  destruct (random_choice [0%Z; 1%Z] g3) as [is_rainy g4].
  destruct (random_randint 0 4 g4) as [ride_category g5].
  destruct (random_uniform (-25) 25 g5) as [noise_fare g6].
  destruct (random_uniform (-5) 5 g6) as [noise_eta g7].
  destruct (Z.eqb_spec ride_category 0) as [-> | H0];
    [cbn; apply Rmin_r |].
  destruct (Z.eqb_spec ride_category 1) as [-> | H1];
    [cbn; apply Rmin_r |].
  destruct (Z.eqb_spec ride_category 2) as [-> | H2];
    [cbn; apply Rmin_r |].
  destruct (Z.eqb_spec ride_category 3) as [-> | H3];
    [cbn; apply Rmin_r |].
  cbn [fst ts_distance_km ts_ride_category].
  destruct (Z.eq_dec ride_category 4) as [-> | H4].
  - cbn. apply Rmin_r.
  - rewrite dict_get_unknown_category by lia.
    apply Rle_trans with 20; [apply Rmin_r | lra].
Qed.

Lemma generate_synthetic_data_Forall (P : TripSample -> Prop) :
  (forall g : rng, P (fst (generate_sample g))) ->
  forall (num_samples : nat) (g : rng),
    Forall P (fst (generate_synthetic_data num_samples g)).
Proof.
  intros HP num_samples. induction num_samples as [| n IH]; intros g.
  - constructor.
  - cbn [generate_synthetic_data].
    pose proof (HP g) as Hrow.
    destruct (generate_sample g) as [row g1].
    pose proof (IH g1) as Hall.
    destruct (generate_synthetic_data n g1) as [data g2].
    cbn [fst] in *. constructor; assumption.
Qed.

Lemma generate_synthetic_data_app (m n : nat) (g : rng) :
  generate_synthetic_data (m + n) g
  = (fst (generate_synthetic_data m g)
       ++ fst (generate_synthetic_data n (snd (generate_synthetic_data m g))),
     snd (generate_synthetic_data n (snd (generate_synthetic_data m g)))).
Proof.
  revert g. induction m as [| m IH]; intros g.
  - cbn [Nat.add generate_synthetic_data fst snd app].
    destruct (generate_synthetic_data n g); reflexivity.
  - cbn [Nat.add generate_synthetic_data].
    destruct (generate_sample g) as [row g1].
    rewrite IH.
    destruct (generate_synthetic_data m g1) as [data g2]. cbn [fst snd].
    destruct (generate_synthetic_data n g2) as [data' g3]. reflexivity.
Qed.

End GeneratorFacts.

(** X11.  When the draws of the [random] module stay in their documented
    ranges, every generated row has a distance of at least 1, an hour in
    0..23, a day in 0..6, a rain flag 0 or 1 and a category in 0..4. *)
Theorem generate_synthetic_data_features_in_range :
  forall (C : Collaborators) (num_samples : nat) (g : rng),
    rng_in_range C ->
    Forall
      (fun s : TripSample =>
         1 <= ts_distance_km s
         /\ (0 <= ts_time_of_day_hour s <= 23)%Z
         /\ (0 <= ts_day_of_week s <= 6)%Z
         /\ (ts_is_rainy s = 0 \/ ts_is_rainy s = 1)%Z
         /\ (0 <= ts_ride_category s <= 4)%Z)
      (fst (generate_synthetic_data num_samples g)).
Proof.
  intros C num_samples g H.
  apply generate_synthetic_data_Forall. intros g'.
  exact (generate_sample_features_in_range g' H).
Qed.

Lemma toy_rng_in_range : rng_in_range Toy.collaborators.
Proof.
  repeat split.
  - cbn. unfold Toy.uniform. cbn. lra.
  - cbn. unfold Toy.uniform. cbn. lra.
  - cbn. pose proof (Z.mod_pos_bound (Z.of_nat g) (b - a + 1) ltac:(lia)). lia.
  - cbn. pose proof (Z.mod_pos_bound (Z.of_nat g) (b - a + 1) ltac:(lia)). lia.
  - intros options g Hne. cbn. apply nth_In.
    apply Nat.mod_upper_bound. destruct options; [contradiction | discriminate].
Qed.

Lemma generate_synthetic_data_features_in_range_witness :
  Forall
    (fun s : TripSample =>
       1 <= ts_distance_km s
       /\ (0 <= ts_time_of_day_hour s <= 23)%Z
       /\ (0 <= ts_day_of_week s <= 6)%Z
       /\ (ts_is_rainy s = 0 \/ ts_is_rainy s = 1)%Z
       /\ (0 <= ts_ride_category s <= 4)%Z)
    (fst (@generate_synthetic_data Toy.collaborators 5 0%nat)).
Proof.
  exact (generate_synthetic_data_features_in_range Toy.collaborators 5 0%nat
           toy_rng_in_range).
Defined.

(** X12.  Generating [m + n] rows is generating [m] rows and then [n] rows
    from the random state the first [m] left: the first rows do not depend
    on how many rows are asked for. *)
Theorem generate_synthetic_data_append :
  forall (C : Collaborators) (m n : nat) (g : rng),
    generate_synthetic_data (m + n) g
    = (fst (generate_synthetic_data m g)
         ++ fst (generate_synthetic_data n (snd (generate_synthetic_data m g))),
       snd (generate_synthetic_data n (snd (generate_synthetic_data m g)))).
Proof. intros C m n g. apply generate_synthetic_data_app. Qed.

(** X13.  Every generated row lies within the clamp the entry point applies
    at prediction time: its distance is at most the maximum distance
    [max_distance_map] gives for its category (default 50), so
    [train_models] fits the models on rows the entry point can reproduce. *)
Theorem generated_rows_within_prediction_clamp :
  forall (C : Collaborators) (num_samples : nat) (g : rng),
    Forall
      (fun s : TripSample =>
         ts_distance_km s <= dict_get max_distance_map (ts_ride_category s) 50
         /\ Rmin (ts_distance_km s) (dict_get max_distance_map (ts_ride_category s) 50)
            = ts_distance_km s)
      (fst (generate_synthetic_data num_samples g)).
Proof.
  intros C num_samples g.
  apply generate_synthetic_data_Forall. intros g'.
  pose proof (generate_sample_within_clamp g') as H.
  split; [exact H | apply Rmin_left; exact H].
Qed.

(** ** Further properties: the distance *)

Lemma math_atan2_quadrant (y x : R) : 0 <= y -> 0 <= x -> math_atan2 y x <= PI / 2.
Proof.
  intros Hy Hx. unfold math_atan2. pose proof PI_RGT_0 as P0.
  destruct (Rlt_dec 0 x) as [Hx0 | Hx0].
  - left. apply atan_bound.
  - destruct (Rlt_dec x 0) as [Hx1 | Hx1]; [lra |].
    destruct (Rlt_dec 0 y); [lra |]. destruct (Rlt_dec y 0); lra.
Qed.

Lemma geodesic_km_half_circumference (lat1 lon1 lat2 lon2 : R) :
  geodesic_km lat1 lon1 lat2 lon2 <= 6371 * PI.
Proof.
  unfold geodesic_km. cbv zeta.
  pose proof (math_atan2_quadrant (sqrt (hav_a lat1 lon1 lat2 lon2))
                (sqrt (1 - hav_a lat1 lon1 lat2 lon2)) (sqrt_pos _) (sqrt_pos _)).
  lra.
Qed.

Lemma hav_a_lon_shift (lat1 lon1 lat2 lon2 : R) :
  hav_a lat1 (lon1 + 360) lat2 lon2 = hav_a lat1 lon1 lat2 lon2.
Proof.
  unfold hav_a. cbv zeta.
  replace ((lon2 * (PI / 180) - (lon1 + 360) * (PI / 180)) / 2)
    with ((lon2 * (PI / 180) - lon1 * (PI / 180)) / 2 - PI)
    by (field; apply Rgt_not_eq; lra).
  rewrite (sin_minus _ PI), cos_PI, sin_PI.
  unfold Rsqr. ring.
Qed.

(** X14.  For numeric coordinates the distance is at most half the
    circumference of the sphere of radius 6371 km. *)
Theorem haversine_distance_at_most_half_circumference :
  forall (lat1 lon1 lat2 lon2 : pyval) (dist : R),
    haversine_distance lat1 lon1 lat2 lon2 = Returned dist ->
    0 <= dist <= 6371 * PI.
Proof.
  intros lat1 lon1 lat2 lon2 dist. rewrite haversine_distance_spec.
  destruct (as_float lat1) as [a1 | e1]; cbn [bind]; [| discriminate].
  destruct (as_float lon1) as [o1 | e2]; cbn [bind]; [| discriminate].
  destruct (as_float lat2) as [a2 | e3]; cbn [bind]; [| discriminate].
  destruct (as_float lon2) as [o2 | e4]; cbn [bind]; [| discriminate].
  intros H. injection H as <-.
  split; [apply geodesic_km_nonneg | apply geodesic_km_half_circumference].
Qed.

Lemma haversine_distance_at_most_half_circumference_witness :
  0 <= geodesic_km 23.785 90.415 23.8200 90.4220 <= 6371 * PI.
Proof.
  exact (haversine_distance_at_most_half_circumference
           (PyFloat 23.785) (PyFloat 90.415) (PyFloat 23.8200) (PyFloat 90.4220)
           (geodesic_km 23.785 90.415 23.8200 90.4220)
           (haversine_distance_numeric
              (PyFloat 23.785) (PyFloat 90.415) (PyFloat 23.8200) (PyFloat 90.4220)
              23.785 90.415 23.8200 90.4220 eq_refl eq_refl eq_refl eq_refl)).
Defined.

(** X15.  The distance does not change when a longitude is shifted by a
    full turn of 360 degrees, on either point. *)
Theorem haversine_distance_longitude_period :
  forall lat1 lon1 lat2 lon2 : R,
    haversine_distance (PyFloat lat1) (PyFloat (lon1 + 360)) (PyFloat lat2) (PyFloat lon2)
    = haversine_distance (PyFloat lat1) (PyFloat lon1) (PyFloat lat2) (PyFloat lon2)
    /\ haversine_distance (PyFloat lat1) (PyFloat lon1)
         (PyFloat lat2) (PyFloat (lon2 + 360))
       = haversine_distance (PyFloat lat1) (PyFloat lon1) (PyFloat lat2) (PyFloat lon2).
Proof.
  intros lat1 lon1 lat2 lon2. rewrite !haversine_distance_spec. cbn [as_float bind].
  unfold geodesic_km.
  rewrite (hav_a_sym lat1 lon1 lat2 (lon2 + 360)).
  rewrite !hav_a_lon_shift. rewrite (hav_a_sym lat2 lon2 lat1 lon1).
  split; reflexivity.
Qed.

Lemma geodesic_km_meridian (lat1 lat2 lon : R) :
  Rabs (lat2 - lat1) <= 180 ->
  geodesic_km lat1 lon lat2 lon = 6371 * (Rabs (lat2 - lat1) * (PI / 180)).
Proof.
  intros Hd. pose proof PI_RGT_0 as P0.
  set (x := Rabs (lat2 - lat1) * (PI / 360)).
  assert (Hx0 : 0 <= x) by (apply Rmult_le_pos; [apply Rabs_pos | lra]).
  assert (Hx1 : x <= PI / 2) by (unfold x; nra).
  assert (Ha : hav_a lat1 lon lat2 lon = (sin x)²).
  { unfold hav_a. cbv zeta.
    replace ((lon * (PI / 180) - lon * (PI / 180)) / 2) with 0 by field.
    rewrite sin_0.
    replace ((lat2 * (PI / 180) - lat1 * (PI / 180)) / 2)
      with ((lat2 - lat1) * (PI / 360)) by field.
    unfold x, Rabs. destruct (Rcase_abs (lat2 - lat1)).
    - replace (- (lat2 - lat1) * (PI / 360)) with (- ((lat2 - lat1) * (PI / 360))) by ring.
      rewrite sin_neg, <- Rsqr_neg. unfold Rsqr. ring.
    - unfold Rsqr. ring. }
  assert (Hs : 0 <= sin x) by (apply sin_ge_0; lra).
  assert (Hc : 0 <= cos x) by (apply cos_ge_0; lra).
  unfold geodesic_km. cbv zeta. rewrite Ha.
  rewrite (sqrt_Rsqr _ Hs).
  replace (1 - (sin x)²) with ((cos x)²) by (pose proof (sin2_cos2 x); lra).
  rewrite (sqrt_Rsqr _ Hc).
  assert (Hat : math_atan2 (sin x) (cos x) = x).
  { unfold math_atan2. destruct (Rlt_dec 0 (cos x)) as [Hp | Hz].
    - assert (Hlt : x < PI / 2).
      { destruct Hx1 as [Hlt | Heq]; [exact Hlt |].
        rewrite Heq, cos_PI2 in Hp. lra. }
      change (sin x / cos x) with (tan x). apply atan_tan. lra.
    - assert (Hc0 : cos x = 0) by lra.
      destruct (Rlt_dec (cos x) 0) as [Hn | _]; [lra |].
      assert (Hs1 : sin x = 1).
      { pose proof (sin2_cos2 x) as Q. rewrite Hc0 in Q. unfold Rsqr in Q. nra. }
      rewrite Hs1. destruct (Rlt_dec 0 1) as [_ | N]; [| lra].
      assert (Heq : x = PI / 2).
      { destruct Hx1 as [Hlt | Heq]; [| exact Heq].
        assert (0 < cos x) by (apply cos_gt_0; lra). lra. }
      lra. }
  rewrite Hat. unfold x. field.
Qed.

(** X16.  Along a meridian the distance is the arc length: for two points of
    the same longitude whose latitudes differ by at most 180 degrees it is
    6371 times the latitude difference in radians. *)
Theorem haversine_distance_along_meridian :
  forall lat1 lat2 lon : R,
    Rabs (lat2 - lat1) <= 180 ->
    haversine_distance (PyFloat lat1) (PyFloat lon) (PyFloat lat2) (PyFloat lon)
    = Returned (6371 * (Rabs (lat2 - lat1) * (PI / 180))).
Proof.
  intros lat1 lat2 lon H. rewrite haversine_distance_spec. cbn [as_float bind].
  rewrite (geodesic_km_meridian lat1 lat2 lon H). reflexivity.
Qed.

Lemma haversine_distance_along_meridian_witness :
  haversine_distance (PyFloat 23) (PyFloat 90) (PyFloat 24) (PyFloat 90)
  = Returned (6371 * (Rabs (24 - 23) * (PI / 180))).
Proof.
  apply (haversine_distance_along_meridian 23 24 90).
  apply Rabs_le. lra.
Defined.

(** ** Further properties: [predict_ride_details.py] *)

Section BaselineFacts.
Context {C : Collaborators}.

Lemma baseline_predict_values (pickup_coords destination_coords : pyval) (g : rng) :
  Baseline.predict_ride_details pickup_coords destination_coords g
  = (baseline_response
       (fst (Baseline.predict_ride_details_values pickup_coords destination_coords g)),
     snd (Baseline.predict_ride_details_values pickup_coords destination_coords g)).
Proof.
  unfold Baseline.predict_ride_details, Baseline.predict_ride_details_values.
  destruct (unpack2 pickup_coords) as [[a b] | e1]; cbn [bind];
    [| destruct e1; reflexivity].
  destruct (unpack2 destination_coords) as [[c d] | e2]; cbn [bind];
    [| destruct e2; reflexivity].
  destruct (PredictRideDetails.haversine_distance a b c d) as [dist | e3];
    [| reflexivity].
  destruct (random_uniform (-0.1) 0.1 g) as [noise g1].
  destruct (random_randint 5 15 g1) as [delay g2]. reflexivity.
Qed.

Lemma baseline_values_unpack_failure (pickup_coords destination_coords : pyval) (g : rng) :
  (exists e, unpack2 pickup_coords = Raised e)
  \/ (exists e, unpack2 destination_coords = Raised e) ->
  Baseline.predict_ride_details_values pickup_coords destination_coords g
  = (Returned None, g).
Proof.
  intros H. unfold Baseline.predict_ride_details_values.
  destruct (unpack2 pickup_coords) as [[a b] | e1]; cbn [bind].
  - destruct H as [[e H] | [e H]]; [discriminate H |]. rewrite H. cbn [bind].
    destruct e; reflexivity.
  - destruct e1; reflexivity.
Qed.

Lemma baseline_values_raises
  (pickup_coords destination_coords pickup_lat pickup_lon dest_lat dest_lon : pyval)
  (g : rng) (e : exn) :
  unpack2 pickup_coords = Returned (pickup_lat, pickup_lon) ->
  unpack2 destination_coords = Returned (dest_lat, dest_lon) ->
  haversine_distance pickup_lat pickup_lon dest_lat dest_lon = Raised e ->
  Baseline.predict_ride_details_values pickup_coords destination_coords g
  = (Raised e, g).
Proof.
  intros Hp Hd Hh. unfold Baseline.predict_ride_details_values.
  rewrite Hp, Hd. cbn [bind].
  change PredictRideDetails.haversine_distance with haversine_distance.
  rewrite Hh. reflexivity.
Qed.

Lemma baseline_values_returns
  (pickup_coords destination_coords pickup_lat pickup_lon dest_lat dest_lon : pyval)
  (g : rng) (dist : R) :
  unpack2 pickup_coords = Returned (pickup_lat, pickup_lon) ->
  unpack2 destination_coords = Returned (dest_lat, dest_lon) ->
  haversine_distance pickup_lat pickup_lon dest_lat dest_lon = Returned dist ->
  Baseline.predict_ride_details_values pickup_coords destination_coords g
  = (Returned
       (Some
          {| Baseline.rv_fare :=
               Rmax ((50 + dist * 25) * (1 + fst (random_uniform (-0.1) 0.1 g))) 50;
             Baseline.rv_eta_minutes :=
               dist / 20 * 60
               + IZR (fst (random_randint 5 15 (snd (random_uniform (-0.1) 0.1 g))));
             Baseline.rv_distance_km := dist |}),
     snd (random_randint 5 15 (snd (random_uniform (-0.1) 0.1 g)))).
Proof.
  intros Hp Hd Hh. unfold Baseline.predict_ride_details_values.
  rewrite Hp, Hd. cbn [bind].
  change PredictRideDetails.haversine_distance with haversine_distance.
  rewrite Hh.
  destruct (random_uniform (-0.1) 0.1 g) as [noise g1]. cbn [fst snd].
  destruct (random_randint 5 15 g1) as [delay g2]. reflexivity.
Qed.

(** Every outcome of the values is one of the three above. *)
Lemma baseline_values_cases (pickup_coords destination_coords : pyval) (g : rng) :
  ((exists e, unpack2 pickup_coords = Raised e)
   \/ (exists e, unpack2 destination_coords = Raised e))
  \/ exists pickup_lat pickup_lon dest_lat dest_lon : pyval,
       unpack2 pickup_coords = Returned (pickup_lat, pickup_lon)
       /\ unpack2 destination_coords = Returned (dest_lat, dest_lon)
       /\ ((exists e, haversine_distance pickup_lat pickup_lon dest_lat dest_lon
                      = Raised e)
           \/ (exists dist, haversine_distance pickup_lat pickup_lon dest_lat dest_lon
                            = Returned dist)).
Proof.
  destruct (unpack2 pickup_coords) as [[a b] | e1]; [| left; left; eexists; reflexivity].
  destruct (unpack2 destination_coords) as [[c d] | e2];
    [| left; right; eexists; reflexivity].
  right. exists a, b, c, d. split; [reflexivity |]. split; [reflexivity |].
  destruct (haversine_distance a b c d) as [dist | e3];
    [right | left]; eexists; reflexivity.
Qed.

End BaselineFacts.

(** X17.  A call of [predict_ride_details] whose pickup or destination does
    not unpack into two components returns the error dictionary, and a call
    whose pickup latitude is not a number raises [TypeError]; a call that
    raises or returns the error dictionary draws no random number. *)
Theorem baseline_invalid_input_draws_nothing :
  forall (C : Collaborators) (pickup_coords destination_coords : pyval) (g : rng),
    ((exists e, unpack2 pickup_coords = Raised e)
     \/ (exists e, unpack2 destination_coords = Raised e) ->
     Baseline.predict_ride_details pickup_coords destination_coords g
     = (Returned
          (Baseline.ErrorDict
             "Invalid coordinates format. Expected (latitude, longitude)."),
        g))
    /\ (forall pickup_lat pickup_lon dest_lat dest_lon : pyval,
          unpack2 pickup_coords = Returned (pickup_lat, pickup_lon) ->
          unpack2 destination_coords = Returned (dest_lat, dest_lon) ->
          ~ numeric pickup_lat ->
          Baseline.predict_ride_details pickup_coords destination_coords g
          = (Raised TypeError, g))
    /\ (forall e : exn,
          fst (Baseline.predict_ride_details pickup_coords destination_coords g)
          = Raised e ->
          snd (Baseline.predict_ride_details pickup_coords destination_coords g) = g)
    /\ (forall error : string,
          fst (Baseline.predict_ride_details pickup_coords destination_coords g)
          = Returned (Baseline.ErrorDict error) ->
          snd (Baseline.predict_ride_details pickup_coords destination_coords g) = g).
Proof.
  intros C pickup_coords destination_coords g.
  rewrite baseline_predict_values. split; [| split; [| split]].
  - intros H. rewrite (baseline_values_unpack_failure _ _ g H). reflexivity.
  - intros pickup_lat pickup_lon dest_lat dest_lon Hp Hd Hn.
    rewrite (baseline_values_raises _ _ _ _ _ _ g TypeError Hp Hd
               (haversine_distance_non_numeric _ _ _ _ (or_introl Hn))).
    reflexivity.
  - intros e. cbn [fst snd].
    destruct (baseline_values_cases pickup_coords destination_coords g)
      as [Hu | [a [b [c [d [Hp [Hd [[e' Hh] | [dist Hh]]]]]]]]].
    + rewrite (baseline_values_unpack_failure _ _ g Hu). reflexivity.
    + rewrite (baseline_values_raises _ _ _ _ _ _ g e' Hp Hd Hh). reflexivity.
    + rewrite (baseline_values_returns _ _ _ _ _ _ g dist Hp Hd Hh). cbn. discriminate.
  - intros error. cbn [fst snd].
    destruct (baseline_values_cases pickup_coords destination_coords g)
      as [Hu | [a [b [c [d [Hp [Hd [[e' Hh] | [dist Hh]]]]]]]]].
    + rewrite (baseline_values_unpack_failure _ _ g Hu). reflexivity.
    + rewrite (baseline_values_raises _ _ _ _ _ _ g e' Hp Hd Hh). reflexivity.
    + rewrite (baseline_values_returns _ _ _ _ _ _ g dist Hp Hd Hh). cbn. discriminate.
Qed.

Lemma baseline_invalid_input_draws_nothing_witness :
  @Baseline.predict_ride_details Toy.collaborators
    (PyTuple [PyInt 1; PyInt 2]) (PyStr "invalid") 7%nat
  = (Returned
       (Baseline.ErrorDict "Invalid coordinates format. Expected (latitude, longitude)."),
     7%nat).
Proof.
  apply (baseline_invalid_input_draws_nothing Toy.collaborators
           (PyTuple [PyInt 1; PyInt 2]) (PyStr "invalid") 7%nat).
  right. exists ValueError. reflexivity.
Defined.

(** X18.  When [predict_ride_details] returns a result, the fare it formats
    is at least the base fare 50 whatever the noise; and when the draws stay
    in their ranges the fare is within 10 percent of [50 + 25 * distance]
    and the ETA is 3 minutes per kilometre plus a delay of 5 to 15. *)
Theorem baseline_fare_and_eta_bounds :
  forall (C : Collaborators) (pickup_coords destination_coords : pyval) (g : rng)
         (v : Baseline.RideValues),
    fst (Baseline.predict_ride_details_values pickup_coords destination_coords g)
    = Returned (Some v) ->
    fst (Baseline.predict_ride_details pickup_coords destination_coords g)
    = Returned (Baseline.ResultDict (Baseline.render v))
    /\ 50 <= Baseline.rv_fare v
    /\ 0 <= Baseline.rv_distance_km v
    /\ (rng_in_range C ->
        0.9 * (50 + 25 * Baseline.rv_distance_km v) <= Baseline.rv_fare v
        /\ Baseline.rv_fare v <= 1.1 * (50 + 25 * Baseline.rv_distance_km v)
        /\ 3 * Baseline.rv_distance_km v + 5 <= Baseline.rv_eta_minutes v
        /\ Baseline.rv_eta_minutes v <= 3 * Baseline.rv_distance_km v + 15).
Proof.
  intros C pickup_coords destination_coords g v H.
  rewrite baseline_predict_values. cbn [fst]. rewrite H. cbn [baseline_response].
  split; [reflexivity |].
  destruct (baseline_values_cases pickup_coords destination_coords g)
    as [Hu | [a [b [c [d [Hp [Hd [[e' Hh] | [dist Hh]]]]]]]]].
  - rewrite (baseline_values_unpack_failure _ _ g Hu) in H. discriminate H.
  - rewrite (baseline_values_raises _ _ _ _ _ _ g e' Hp Hd Hh) in H. discriminate H.
  - rewrite (baseline_values_returns _ _ _ _ _ _ g dist Hp Hd Hh) in H.
    cbn [fst] in H. injection H as <-.
    cbn [Baseline.rv_fare Baseline.rv_distance_km Baseline.rv_eta_minutes].
    assert (Hdist : 0 <= dist).
    { rewrite haversine_distance_spec in Hh.
      destruct (as_float a); cbn [bind] in Hh; [| discriminate Hh].
      destruct (as_float b); cbn [bind] in Hh; [| discriminate Hh].
      destruct (as_float c); cbn [bind] in Hh; [| discriminate Hh].
      destruct (as_float d); cbn [bind] in Hh; [| discriminate Hh].
      injection Hh as <-. apply geodesic_km_nonneg. }
    split; [apply Rmax_r |]. split; [exact Hdist |].
    intros [Hu [Hr _]].
    pose proof (Hu (-0.1) 0.1 g ltac:(lra)) as [N1 N2].
    pose proof (Hr 5%Z 15%Z (snd (random_uniform (-0.1) 0.1 g)) ltac:(lia)) as [D1 D2].
    apply IZR_le in D1, D2.
    set (noise := fst (random_uniform (-0.1) 0.1 g)) in *.
    set (delay := IZR (fst (random_randint 5 15 (snd (random_uniform (-0.1) 0.1 g))))) in *.
    repeat split.
    + apply Rle_trans with ((50 + dist * 25) * (1 + noise)); [nra | apply Rmax_l].
    + apply Rmax_lub; nra.
    + lra.
    + lra.
Qed.

Lemma baseline_values_numeric_some (C : Collaborators)
  (pickup_coords destination_coords pickup_lat pickup_lon dest_lat dest_lon : pyval)
  (g : rng) :
  unpack2 pickup_coords = Returned (pickup_lat, pickup_lon) ->
  unpack2 destination_coords = Returned (dest_lat, dest_lon) ->
  numeric pickup_lat -> numeric pickup_lon -> numeric dest_lat -> numeric dest_lon ->
  exists v : Baseline.RideValues,
    Baseline.predict_ride_details_values pickup_coords destination_coords g
    = (Returned (Some v),
       snd (random_randint 5 15 (snd (random_uniform (-0.1) 0.1 g)))).
Proof.
  intros Hp Hd [x Hx] [y Hy] [u Hu] [w Hw].
  eexists.
  apply (baseline_values_returns _ _ _ _ _ _ g _ Hp Hd
           (haversine_distance_numeric _ _ _ _ _ _ _ _ Hx Hy Hu Hw)).
Qed.

Lemma baseline_fare_and_eta_bounds_witness :
  exists v : Baseline.RideValues,
    fst (@Baseline.predict_ride_details_values Toy.collaborators
           (PyTuple [PyFloat 23.7939; PyFloat 90.4078])
           (PyTuple [PyFloat 23.8200; PyFloat 90.4220]) 0%nat)
    = Returned (Some v)
    /\ fst (@Baseline.predict_ride_details Toy.collaborators
              (PyTuple [PyFloat 23.7939; PyFloat 90.4078])
              (PyTuple [PyFloat 23.8200; PyFloat 90.4220]) 0%nat)
       = Returned (Baseline.ResultDict (@Baseline.render Toy.collaborators v))
    /\ 50 <= Baseline.rv_fare v
    /\ 0 <= Baseline.rv_distance_km v
    /\ (rng_in_range Toy.collaborators ->
        0.9 * (50 + 25 * Baseline.rv_distance_km v) <= Baseline.rv_fare v
        /\ Baseline.rv_fare v <= 1.1 * (50 + 25 * Baseline.rv_distance_km v)
        /\ 3 * Baseline.rv_distance_km v + 5 <= Baseline.rv_eta_minutes v
        /\ Baseline.rv_eta_minutes v <= 3 * Baseline.rv_distance_km v + 15).
Proof.
  destruct (baseline_values_numeric_some Toy.collaborators
              (PyTuple [PyFloat 23.7939; PyFloat 90.4078])
              (PyTuple [PyFloat 23.8200; PyFloat 90.4220])
              (PyFloat 23.7939) (PyFloat 90.4078) (PyFloat 23.8200) (PyFloat 90.4220)
              0%nat eq_refl eq_refl
              (PyFloat_numeric _) (PyFloat_numeric _)
              (PyFloat_numeric _) (PyFloat_numeric _)) as [v Hv].
  exists v.
  assert (H : fst (@Baseline.predict_ride_details_values Toy.collaborators
                     (PyTuple [PyFloat 23.7939; PyFloat 90.4078])
                     (PyTuple [PyFloat 23.8200; PyFloat 90.4220]) 0%nat)
              = Returned (Some v)) by (rewrite Hv; reflexivity).
  split; [exact H |].
  exact (baseline_fare_and_eta_bounds Toy.collaborators _ _ _ v H).
Defined.

(** X19.  The two entry points treat their coordinate arguments alike: on
    the same pickup and destination one returns its error dictionary
    exactly when the other does; an exception raised by
    [predict_ride_details] is raised by [predict_ride_details_advanced]
    too; and when [predict_ride_details_advanced] returns a result so does
    [predict_ride_details], with the same distance text whenever the
    distance does not exceed the category's maximum. *)
Theorem baseline_and_advanced_agree_on_coordinates :
  forall (C : Collaborators) (pickup_coords destination_coords : pyval)
         (time_of_day_hour day_of_week is_rainy ride_category : Z)
         (pickup_location_name : string) (st : globals) (g : rng),
    (fst (predict_ride_details_advanced pickup_coords destination_coords
            time_of_day_hour day_of_week is_rainy ride_category
            pickup_location_name st)
     = Returned
         (ErrorDict "Invalid coordinates format. Expected (latitude, longitude).")
     <-> fst (Baseline.predict_ride_details pickup_coords destination_coords g)
         = Returned
             (Baseline.ErrorDict
                "Invalid coordinates format. Expected (latitude, longitude)."))
    /\ (forall e : exn,
          fst (Baseline.predict_ride_details pickup_coords destination_coords g)
          = Raised e ->
          fst (predict_ride_details_advanced pickup_coords destination_coords
                 time_of_day_hour day_of_week is_rainy ride_category
                 pickup_location_name st)
          = Raised e)
    /\ (forall res : PredictionResult,
          fst (predict_ride_details_advanced pickup_coords destination_coords
                 time_of_day_hour day_of_week is_rainy ride_category
                 pickup_location_name st)
          = Returned (ResultDict res) ->
          exists (details : Baseline.RideDetails) (dist : R),
            fst (Baseline.predict_ride_details pickup_coords destination_coords g)
            = Returned (Baseline.ResultDict details)
            /\ Baseline.rd_distance_km details = (format_2f dist ++ " km")%string
            /\ pr_distance_km res
               = (format_2f (Rmin dist (dict_get max_distance_map ride_category 50))
                  ++ " km")%string
            /\ (dist <= dict_get max_distance_map ride_category 50 ->
                pr_distance_km res = Baseline.rd_distance_km details)).
Proof.
  intros C pickup_coords destination_coords time_of_day_hour day_of_week
    is_rainy ride_category pickup_location_name st g.
  rewrite predict_ride_details_advanced_unfold, baseline_predict_values. cbn [fst].
  destruct (baseline_values_cases pickup_coords destination_coords g)
    as [Hu | [a [b [c [d [Hp [Hd [[e' Hh] | [dist Hh]]]]]]]]].
  - rewrite (predict_with_unpack_failure _ _ _ _ _ _ _ _ _ Hu).
    rewrite (baseline_values_unpack_failure _ _ g Hu).
    cbn [fst baseline_response]. unfold invalid_coordinates.
    split; [split; reflexivity |]. split; [discriminate | discriminate].
  - rewrite (predict_with_raises _ _ _ _ _ _ _ _ _ _ _ _ _ _ Hp Hd Hh).
    rewrite (baseline_values_raises _ _ _ _ _ _ g e' Hp Hd Hh).
    cbn [fst baseline_response].
    split; [split; discriminate |].
    split; [intros e H; injection H as <-; reflexivity | discriminate].
  - rewrite (baseline_values_returns _ _ _ _ _ _ g dist Hp Hd Hh).
    cbn [fst baseline_response].
    assert (Hn : numeric a /\ numeric b /\ numeric c /\ numeric d).
    { pose proof Hh as Hs. rewrite haversine_distance_spec in Hs. unfold numeric.
      destruct (as_float a); cbn [bind] in Hs; [| discriminate Hs].
      destruct (as_float b); cbn [bind] in Hs; [| discriminate Hs].
      destruct (as_float c); cbn [bind] in Hs; [| discriminate Hs].
      destruct (as_float d); cbn [bind] in Hs; [| discriminate Hs].
      repeat split; eexists; reflexivity. }
    destruct Hn as [Na [Nb [Nc Nd]]].
    destruct (predict_with_numeric
                (fst (fst (get_trained_models st))) (snd (fst (get_trained_models st)))
                pickup_coords destination_coords a b c d
                time_of_day_hour day_of_week is_rainy ride_category
                pickup_location_name Hp Hd Na Nb Nc Nd)
      as [dist' [surge [res0 [Hh' [_ [Hres [Hdist _]]]]]]].
    rewrite Hh in Hh'. injection Hh' as <-. rewrite Hres.
    split; [split; discriminate |]. split; [discriminate |].
    intros res H. injection H as <-.
    eexists _, dist. split; [reflexivity |].
    cbn [Baseline.render Baseline.rd_distance_km Baseline.rv_distance_km].
    split; [reflexivity |]. split; [exact Hdist |].
    intros Hle. rewrite Hdist, Rmin_left by exact Hle. reflexivity.
Qed.

(** X20.  The example block of [predict_ride_details.py] returns, for every
    source of randomness, results for its two valid calls and the error
    dictionary for its call with destination "invalid"; the third call draws
    no random number. *)
Theorem baseline_main_outcome :
  forall (C : Collaborators) (g : rng),
    exists r1 r2 : Baseline.RideDetails,
      Baseline.main g
      = (Returned
           (Baseline.ResultDict r1, Baseline.ResultDict r2,
            Baseline.ErrorDict
              "Invalid coordinates format. Expected (latitude, longitude)."),
         snd (random_randint 5 15
                (snd (random_uniform (-0.1) 0.1
                        (snd (random_randint 5 15
                                (snd (random_uniform (-0.1) 0.1 g)))))))).
Proof.
  intros C g. unfold Baseline.main. cbv zeta.
  destruct (baseline_values_numeric_some C
              (PyTuple [PyFloat 23.7939; PyFloat 90.4078])
              (PyTuple [PyFloat 23.8200; PyFloat 90.4220])
              (PyFloat 23.7939) (PyFloat 90.4078) (PyFloat 23.8200) (PyFloat 90.4220)
              g eq_refl eq_refl
              (PyFloat_numeric _) (PyFloat_numeric _)
              (PyFloat_numeric _) (PyFloat_numeric _)) as [v1 H1].
  rewrite baseline_predict_values, H1. cbn [fst snd baseline_response].
  set (g1 := snd (random_randint 5 15 (snd (random_uniform (-0.1) 0.1 g)))).
  destruct (baseline_values_numeric_some C
              (PyTuple [PyFloat 23.7939; PyFloat 90.4078])
              (PyTuple [PyFloat 23.7950; PyFloat 90.4085])
              (PyFloat 23.7939) (PyFloat 90.4078) (PyFloat 23.7950) (PyFloat 90.4085)
              g1 eq_refl eq_refl
              (PyFloat_numeric _) (PyFloat_numeric _)
              (PyFloat_numeric _) (PyFloat_numeric _)) as [v2 H2].
  rewrite baseline_predict_values, H2. cbn [fst snd baseline_response].
  rewrite baseline_predict_values.
  rewrite (baseline_values_unpack_failure
             (PyTuple [PyInt 1; PyInt 2]) (PyStr "invalid") _
             (or_intror (ex_intro _ ValueError eq_refl))).
  cbn [fst snd baseline_response].
  exists (Baseline.render v1), (Baseline.render v2). reflexivity.
Qed.
